(** * autoCFF: identity resolution and contribution aggregation

    A shallow embedding of [main.py]: the functions
    [get_repository_contributors], [search_github_user_for_orcid],
    [get_name_and_institution_from_github_api], [search_orcid_individual]
    and [search_github_user_for_orcid_robust], together with the fragment
    of Python they rely on (JSON values as returned by [response.json()],
    [dict.get], [==], truthiness, [str()], [str.split], [re.findall] for
    the one pattern of the program).

    Conventions of the model.
    - JSON numbers are integers (floating point numbers are left out).
    - A Python string is the byte string of its UTF-8 encoding; its
      characters (what a [for] loop, [re] and [repr] see) are the UTF-8
      sequences of these bytes.  The class of an ASCII character (digit,
      word character, uppercase, lowercase, printable) is computed; the
      classes of the characters beyond ASCII come from the Unicode
      tables of the interpreter, which are no part of the program: they
      are a parameter ([unicode]) and every general statement holds for
      all tables.
    - Every [requests.get] is a step of a state monad: the network is a
      function of the number of requests issued so far and of the URL, so
      that two fetches of the same URL may answer differently; the state
      is the sequence of what the run has done so far, newest first:
      URLs requested, lines printed and [time.sleep(0.5)] pauses.
      Request headers are constant in the program and are not recorded;
      every request gets an answer (failures of the connection are left
      out).
    - A Python exception is the [Raise] outcome of a computation. *)

From Stdlib Require Import ZArith List String Ascii Bool Lia PeanoNat.
From Stdlib Require Import DecimalString.
Import ListNotations.

Set Warnings "-register-all".
Local Open Scope Z_scope.
Local Open Scope list_scope.

(* ================================================================== *)
(** ** Python values *)

Module Py.

(** What [response.json()] can return. A dict keeps its insertion order,
    which [str()] shows. *)
Inductive json : Type :=
| JNull
| JBool (b : bool)
| JNum (n : Z)
| JStr (s : string)
| JList (l : list json)
| JDict (d : list (string * json)).

Inductive exn : Type :=
| ValueError (msg : string)
| TypeError
| AttributeError
| IndexError
| KeyError
| JSONDecodeError.

Inductive result (A : Type) : Type :=
| Ok (a : A)
| Raise (e : exn).
Arguments Ok {A} a.
Arguments Raise {A} e.

(** *** Dictionaries *)

Fixpoint dict_lookup (k : string) (d : list (string * json)) : option json :=
  match d with
  | [] => None
  | (k', v) :: d' => if String.eqb k k' then Some v else dict_lookup k d'
  end.

(** [d[k] = v]: the key keeps its place when present, is added last
    otherwise. *)
Fixpoint dict_set (k : string) (v : json) (d : list (string * json))
  : list (string * json) :=
  match d with
  | [] => [(k, v)]
  | (k', v') :: d' =>
      if String.eqb k k' then (k', v) :: d' else (k', v') :: dict_set k v d'
  end.

(** [x.get(k, dflt)]; an [AttributeError] when [x] is not a dict. *)
Definition get_default (x : json) (k : string) (dflt : json) : result json :=
  match x with
  | JDict d => Ok (match dict_lookup k d with Some v => v | None => dflt end)
  | _ => Raise AttributeError
  end.

(** [x.get(k)] *)
Definition get (x : json) (k : string) : result json := get_default x k JNull.

(** *** Equality, truth, order *)

Definition Z_of_bool (b : bool) : Z := if b then 1 else 0.

(** Python's [==] on these values: numbers and booleans compare by
    value, dicts regardless of the order of their keys, values of
    different kinds are unequal. *)
Fixpoint eq (a b : json) {struct a} : bool :=
  match a, b with
  | JNull, JNull => true
  | JBool x, JBool y => Bool.eqb x y
  | JBool x, JNum y => Z.eqb (Z_of_bool x) y
  | JNum x, JBool y => Z.eqb x (Z_of_bool y)
  | JNum x, JNum y => Z.eqb x y
  | JStr x, JStr y => String.eqb x y
  | JList x, JList y =>
      (fix eq_list (l : list json) (m : list json) {struct l} : bool :=
         match l, m with
         | [], [] => true
         | u :: l', v :: m' => eq u v && eq_list l' m'
         | _, _ => false
         end) x y
  | JDict x, JDict y =>
      Nat.eqb (List.length x) (List.length y) &&
      (fix eq_items (l : list (string * json)) {struct l} : bool :=
         match l with
         | [] => true
         | (k, u) :: l' =>
             match dict_lookup k y with
             | Some v => eq u v
             | None => false
             end && eq_items l'
         end) x
  | _, _ => false
  end.

(** [bool(x)] *)
Definition truthy (x : json) : bool :=
  match x with
  | JNull => false
  | JBool b => b
  | JNum n => negb (Z.eqb n 0)
  | JStr s => negb (String.eqb s EmptyString)
  | JList l => match l with [] => false | _ => true end
  | JDict d => match d with [] => false | _ => true end
  end.

(** [x > n] for an integer literal [n]. *)
Definition gt (x : json) (n : Z) : result bool :=
  match x with
  | JNum m => Ok (Z.ltb n m)
  | JBool b => Ok (Z.ltb n (Z_of_bool b))
  | _ => Raise TypeError
  end.

(** One step of [sum(...)]: [acc + x]. *)
Definition add (acc : Z) (x : json) : result Z :=
  match x with
  | JNum m => Ok (acc + m)
  | JBool b => Ok (acc + Z_of_bool b)
  | _ => Raise TypeError
  end.

(** *** Characters *)

Definition char_between (lo hi : nat) (c : ascii) : bool :=
  let n := nat_of_ascii c in Nat.leb lo n && Nat.leb n hi.

(** The classes of the ASCII characters. *)
Definition ascii_digit (c : ascii) : bool := char_between 48 57 c.
Definition ascii_upper (c : ascii) : bool := char_between 65 90 c.
Definition ascii_lower (c : ascii) : bool := char_between 97 122 c.

Definition ascii_word (c : ascii) : bool :=
  ascii_digit c || ascii_upper c || ascii_lower c || Ascii.eqb c "_"%char.

Definition is_ascii (c : ascii) : bool := Nat.ltb (nat_of_ascii c) 128.

(** UTF-8: a byte of the form 10xxxxxx continues a character; a first
    byte of the form 110xxxxx, 1110xxxx or 11110xxx announces one, two
    or three such bytes. *)
Definition is_continuation (c : ascii) : bool := char_between 128 191 c.

Definition lead_extra (c : ascii) : nat :=
  let n := nat_of_ascii c in
  if Nat.ltb n 192 then 0
  else if Nat.ltb n 224 then 1
  else if Nat.ltb n 240 then 2
  else if Nat.ltb n 248 then 3
  else 0.

(** At most [k] continuation bytes standing alone at the head of [l],
    and what follows them. *)
Fixpoint take_continuations (k : nat) (l : list string) : string * list string :=
  match k, l with
  | S k', String b EmptyString :: l' =>
      if is_continuation b then
        let (t, r) := take_continuations k' l' in (String b t, r)
      else (EmptyString, l)
  | _, _ => (EmptyString, l)
  end.

(** The characters of a string, each as the string of its bytes. A byte
    that belongs to no well-formed sequence is a character of its
    own. *)
Fixpoint chars (s : string) : list string :=
  match s with
  | EmptyString => []
  | String b s' =>
      let (t, r) := take_continuations (lead_extra b) (chars s') in
      String b t :: r
  end.

Definition single (b : ascii) : string := String b EmptyString.

(** A character as [chars] makes them: a first byte and no more
    continuation bytes than it announces. *)
Definition well_formed_char (ch : string) : bool :=
  match ch with
  | EmptyString => false
  | String b t =>
      Nat.leb (String.length t) (lead_extra b)
      && forallb is_continuation (list_ascii_of_string t)
  end.

(** The ASCII character that [ch] is, if it is one. *)
Definition ascii_of (ch : string) : option ascii :=
  match ch with
  | String b EmptyString => if is_ascii b then Some b else None
  | _ => None
  end.

(** The number of the character [ch] in Unicode. *)
Definition codepoint (ch : string) : N :=
  match map N_of_ascii (list_ascii_of_string ch) with
  | [a] => a
  | [a; b] => ((a mod 32) * 64 + b mod 64)%N
  | [a; b; c] => ((a mod 16) * 4096 + (b mod 64) * 64 + c mod 64)%N
  | [a; b; c; d] =>
      ((a mod 8) * 262144 + (b mod 64) * 4096 + (c mod 64) * 64 + d mod 64)%N
  | _ => 0%N
  end.

(** What the interpreter's Unicode tables say of the characters beyond
    ASCII: decimal digit ([\d]), alphanumeric ([\w]), uppercase,
    lowercase or titlecase, printable. *)
Class unicode : Type :=
  { digit_beyond : string -> bool;
    word_beyond : string -> bool;
    upper_beyond : string -> bool;
    lower_beyond : string -> bool;
    printable_beyond : string -> bool }.

Section Classes.

Context {U : unicode}.

(** [\d] *)
Definition digit_char (ch : string) : bool :=
  match ascii_of ch with Some c => ascii_digit c | None => digit_beyond ch end.

(** [\w] *)
Definition word_char (ch : string) : bool :=
  match ascii_of ch with Some c => ascii_word c | None => word_beyond ch end.

Definition upper_char (ch : string) : bool :=
  match ascii_of ch with Some c => ascii_upper c | None => upper_beyond ch end.

(** Cased and not uppercase. *)
Definition lower_char (ch : string) : bool :=
  match ascii_of ch with Some c => ascii_lower c | None => lower_beyond ch end.

(** [s.isupper()]: some uppercase character, and no lowercase or
    titlecase one. *)
Definition isupper (s : string) : bool :=
  let l := chars s in existsb upper_char l && negb (existsb lower_char l).

End Classes.

(** *** Iteration and indexing *)

Definition chars_of (s : string) : list json := map JStr (chars s).

(** The elements a [for] loop or a comprehension visits. *)
Definition iter (x : json) : result (list json) :=
  match x with
  | JList l => Ok l
  | JDict d => Ok (map (fun kv => JStr (fst kv)) d)
  | JStr s => Ok (chars_of s)
  | _ => Raise TypeError
  end.

(** [x[0]] *)
Definition index0 (x : json) : result json :=
  match x with
  | JList (v :: _) => Ok v
  | JList [] => Raise IndexError
  | JStr s =>
      match chars s with
      | ch :: _ => Ok (JStr ch)
      | [] => Raise IndexError
      end
  | JDict _ => Raise KeyError
  | _ => Raise TypeError
  end.

(** *** [str.split(" ")] *)

(** The pieces between single spaces; there is always at least one. *)
Fixpoint split_space (s : string) : string * list string :=
  match s with
  | EmptyString => (EmptyString, [])
  | String c s' =>
      let (w, ws) := split_space s' in
      if Ascii.eqb c " "%char then (EmptyString, w :: ws)
      else (String c w, ws)
  end.

(** [name.split(" ")[0]] and [name.split(" ")[-1]] *)
Definition first_token (s : string) : string := fst (split_space s).
Definition last_token (s : string) : string :=
  let (w, ws) := split_space s in last ws w.

(** *** [str()] and [repr()] *)

Definition string_of_Z (n : Z) : string := NilZero.string_of_int (Z.to_int n).

Definition hex_digit (n : nat) : ascii :=
  (if Nat.ltb n 10 then ascii_of_nat (48 + n) else ascii_of_nat (87 + n))%nat.

Definition backslash : ascii := ascii_of_nat 92.
Definition dquote : ascii := ascii_of_nat 34.
Definition squote : ascii := ascii_of_nat 39.

Definition escape (c : ascii) : string := String backslash (String c EmptyString).

Definition hex_char (n : N) : ascii := hex_digit (N.to_nat n).

(** [n] in [width] hexadecimal digits. *)
Fixpoint hex (width : nat) (n : N) : string :=
  match width with
  | O => EmptyString
  | S w => (hex w (n / 16) ++ String (hex_char (n mod 16)) EmptyString)%string
  end.

(** The escape of a character that is not printable: [\xNN],
    [\uNNNN] or [\UNNNNNNNN]. *)
Definition escape_codepoint (n : N) : string :=
  if N.ltb n 256 then String backslash (String "x"%char (hex 2 n))
  else if N.ltb n 65536 then String backslash (String "u"%char (hex 4 n))
  else String backslash (String "U"%char (hex 8 n)).

(** One ASCII character inside [repr] of a string quoted with [q]. *)
Definition repr_ascii (q : ascii) (c : ascii) : string :=
  let n := nat_of_ascii c in
  if Ascii.eqb c backslash then escape backslash
  else if Ascii.eqb c q then escape q
  else if Nat.eqb n 9 then escape "t"%char
  else if Nat.eqb n 10 then escape "n"%char
  else if Nat.eqb n 13 then escape "r"%char
  else if Nat.ltb n 32 || Nat.eqb n 127
       then escape_codepoint (N.of_nat n)
  else String c EmptyString.

Definition has_char (c : ascii) (s : string) : bool :=
  existsb (Ascii.eqb c) (list_ascii_of_string s).

(** Double quotes only for a string with a single quote and no double
    quote. *)
Definition repr_quote (s : string) : ascii :=
  if has_char squote s && negb (has_char dquote s) then dquote else squote.

Section Repr.

Context {U : unicode}.

(** One character inside [repr] of a string quoted with [q]: beyond
    ASCII a printable character stands for itself, another one is
    escaped. *)
Definition repr_char (q : ascii) (ch : string) : string :=
  match ascii_of ch with
  | Some c => repr_ascii q c
  | None => if printable_beyond ch then ch else escape_codepoint (codepoint ch)
  end.

Definition repr_str (s : string) : string :=
  let q := repr_quote s in
  String q (String.concat EmptyString (map (repr_char q) (chars s))
            ++ String q EmptyString)%string.

Fixpoint repr (x : json) : string :=
  match x with
  | JNull => "None"
  | JBool true => "True"
  | JBool false => "False"
  | JNum n => string_of_Z n
  | JStr s => repr_str s
  | JList l =>
      ("[" ++ String.concat ", " (map repr l) ++ "]")%string
  | JDict d =>
      ("{" ++ String.concat ", "
                (map (fun kv => (repr_str (fst kv) ++ ": " ++ repr (snd kv))%string) d)
           ++ "}")%string
  end.

(** [str(x)], also what an f-string puts for [{x}]. *)
Definition str (x : json) : string :=
  match x with
  | JStr s => s
  | _ => repr x
  end.

End Repr.

End Py.

(* ================================================================== *)
(** ** The ORCID pattern and [re.findall] *)

Module Re.
Import Py.

(** The pieces the program's pattern is made of. *)
Inductive atom : Type :=
| Bnd              (* \b *)
| Chr (c : ascii)  (* a literal character *)
| Opt (c : ascii)  (* c? *)
| Dig              (* \d *)
| DigX.            (* [0-9X] *)

Definition lits (s : string) : list atom := map Chr (list_ascii_of_string s).

(** [\d{4}-\d{4}-\d{4}-\d{3}[0-9X]\b] *)
Definition groups_regex : list atom :=
  repeat Dig 4 ++ [Chr "-"%char]
  ++ repeat Dig 4 ++ [Chr "-"%char]
  ++ repeat Dig 4 ++ [Chr "-"%char]
  ++ repeat Dig 3 ++ [DigX] ++ [Bnd].

(** [\bhttps?://orcid\.org/\d{4}-\d{4}-\d{4}-\d{3}[0-9X]\b] *)
Definition orcid_regex : list atom :=
  [Bnd] ++ lits "http" ++ [Opt "s"%char] ++ lits "://orcid.org/" ++ groups_regex.

(** The character [ch] is the ASCII character [c]. *)
Definition char_is (c : ascii) (ch : string) : bool :=
  String.eqb ch (String c EmptyString).

(** [[0-9X]]: a range of ASCII characters. *)
Definition is_check_char (ch : string) : bool :=
  match ascii_of ch with
  | Some c => ascii_digit c || Ascii.eqb c "X"%char
  | None => false
  end.

Definition keep (ch : string) (o : option (list string)) : option (list string) :=
  match o with Some m => Some (ch :: m) | None => None end.

Fixpoint strip_prefix (p : list ascii) (s : list string) : option (list string) :=
  match p, s with
  | [], _ => Some s
  | a :: p', b :: s' => if char_is a b then strip_prefix p' s' else None
  | _ :: _, [] => None
  end.

Definition is_hyphen (ch : string) : bool := char_is "-"%char ch.

Section Matching.

Context {U : unicode}.

Definition is_word_opt (o : option string) : bool :=
  match o with Some ch => word_char ch | None => false end.

(** [\b] holds between a word character and a non-word character or an
    end of the text. *)
Definition boundary (prev next : option string) : bool :=
  xorb (is_word_opt prev) (is_word_opt next).

(** A match of [r] at the head of the characters [s], [prev] being the
    character before it; an optional character is taken when the rest
    then matches (greedy, with backtracking). *)
Fixpoint match_here (r : list atom) (prev : option string) (s : list string)
  : option (list string) :=
  match r with
  | [] => Some []
  | Bnd :: r' =>
      if boundary prev (hd_error s) then match_here r' prev s else None
  | Chr c :: r' =>
      match s with
      | x :: s' => if char_is c x then keep x (match_here r' (Some x) s') else None
      | [] => None
      end
  | Opt c :: r' =>
      match s with
      | x :: s' =>
          if char_is c x then
            match keep x (match_here r' (Some x) s') with
            | Some m => Some m
            | None => match_here r' prev s
            end
          else match_here r' prev s
      | [] => match_here r' prev s
      end
  | Dig :: r' =>
      match s with
      | x :: s' => if digit_char x then keep x (match_here r' (Some x) s') else None
      | [] => None
      end
  | DigX :: r' =>
      match s with
      | x :: s' =>
          if is_check_char x then keep x (match_here r' (Some x) s') else None
      | [] => None
      end
  end.

(** The scan of [re.findall]: matches are looked for from left to right
    and do not overlap; [skip] counts the characters of the last match
    still to pass. *)
Fixpoint scan (r : list atom) (prev : option string) (skip : nat) (s : list string)
  : list (list string) :=
  match s with
  | [] => []
  | c :: s' =>
      match skip with
      | S k => scan r (Some c) k s'
      | O =>
          match match_here r prev s with
          | Some m => m :: scan r (Some c) (Nat.pred (List.length m)) s'
          | None => scan r (Some c) O s'
          end
      end
  end.

(** [re.findall(orcid_regex, text)] *)
Definition findall (text : string) : list string :=
  map (String.concat EmptyString) (scan orcid_regex None O (chars text)).

(** *** The pattern in words

    The identifier link as the specification describes it: the scheme
    [http] or [https], the host [orcid.org], and four groups of four
    characters separated by hyphens, all of them decimal digits (in the
    sense of [\d]) but the last, which is one of [0] to [9] or the
    letter X. *)

Definition pid_groups (l : list string) : bool :=
  match l with
  | [a1; a2; a3; a4; h1; b1; b2; b3; b4; h2; c1; c2; c3; c4; h3; d1; d2; d3; d4] =>
      forallb digit_char [a1; a2; a3; a4; b1; b2; b3; b4; c1; c2; c3; c4; d1; d2; d3]
      && forallb is_hyphen [h1; h2; h3]
      && is_check_char d4
  | _ => false
  end.

Definition is_pid_link (m : list string) : bool :=
  match strip_prefix (list_ascii_of_string "https://orcid.org/") m with
  | Some l => pid_groups l
  | None =>
      match strip_prefix (list_ascii_of_string "http://orcid.org/") m with
      | Some l => pid_groups l
      | None => false
      end
  end.

(** The characters [m] occur in [text] after [pre] and before [post]. *)
Definition occurs_at (text pre m post : list string) : Prop :=
  text = pre ++ m ++ post /\ is_pid_link m = true.

(** The occurrence stands between word boundaries: no word character
    (letter, digit, underscore) right before it ([prev] being the
    character before the text) or right after it. *)
Definition delimited_after (prev : option string) (pre post : list string) : Prop :=
  is_word_opt (last (map Some pre) prev) = false /\
  is_word_opt (hd_error post) = false.

Definition delimited (pre post : list string) : Prop :=
  delimited_after None pre post.

(** [m] is the leftmost delimited occurrence of an identifier link in
    [text]. *)
Definition first_pid (text : string) (m : string) : Prop :=
  exists pre link post,
    m = String.concat EmptyString link /\
    occurs_at (chars text) pre link post /\
    delimited pre post /\
    forall pre' link' post',
      occurs_at (chars text) pre' link' post' ->
      delimited pre' post' ->
      (List.length pre <= List.length pre')%nat.

(** The string [m] reads as an identifier link. *)
Definition is_pid_string (m : string) : Prop :=
  exists link, m = String.concat EmptyString link /\ is_pid_link link = true.

(** [text] has an identifier link somewhere, delimited or not. *)
Definition has_pid (text : string) : Prop :=
  exists pre m post, occurs_at (chars text) pre m post.

End Matching.

End Re.

(* ================================================================== *)
(** ** The program *)

Module Main.
Import Py.

Local Open Scope string_scope.

(** What the program reads of a [requests] response: the status and the
    decoded body ([None] when the body is not JSON, in which case
    [response.json()] raises). *)
Record response : Type := { status_code : Z; body : option json }.

(** What a run does that can be observed from outside. *)
Inductive event : Type :=
| Requested (url : string)   (* requests.get(url) *)
| Printed (line : string)    (* print(line) *)
| Paused.                    (* time.sleep(0.5) *)

(** The observable state: what the run has done so far, newest first. *)
Definition world : Type := list event.

(** The URLs requested and the lines printed (newest first in both),
    and the number of pauses. *)
Fixpoint requests (w : world) : list string :=
  match w with
  | [] => []
  | Requested url :: w' => url :: requests w'
  | _ :: w' => requests w'
  end.

Fixpoint stdout (w : world) : list string :=
  match w with
  | [] => []
  | Printed line :: w' => line :: stdout w'
  | _ :: w' => stdout w'
  end.

Fixpoint sleeps (w : world) : nat :=
  match w with
  | [] => O
  | Paused :: w' => S (sleeps w')
  | _ :: w' => sleeps w'
  end.

Definition M (A : Type) : Type := world -> result A * world.

Definition ret {A} (a : A) : M A := fun w => (Ok a, w).
Definition raise {A} (e : exn) : M A := fun w => (Raise e, w).
Definition lift {A} (r : result A) : M A := fun w => (r, w).

Definition bind {A B} (c : M A) (k : A -> M B) : M B :=
  fun w =>
    match c w with
    | (Ok a, w') => k a w'
    | (Raise e, w') => (Raise e, w')
    end.

Definition rbind {A B} (c : result A) (k : A -> result B) : result B :=
  match c with
  | Ok a => k a
  | Raise e => Raise e
  end.

Notation "x <- c ;; k" := (bind c (fun x => k))
  (at level 61, c at next level, right associativity).
Notation "c ;;; k" := (bind c (fun _ => k))
  (at level 61, right associativity).
Notation "x <-- c ;; k" := (rbind c (fun x => k))
  (at level 61, c at next level, right associativity).

(** The state once [url] has been requested, [line] printed, a pause
    taken. *)
Definition sent (url : string) (w : world) : world := Requested url :: w.

Definition printed (line : string) (w : world) : world := Printed line :: w.

Definition slept (w : world) : world := Paused :: w.

(** [print(line)] *)
Definition print (line : string) : M unit := fun w => (Ok tt, printed line w).

(** [time.sleep(0.5)] *)
Definition sleep_half : M unit := fun w => (Ok tt, slept w).

(** [response.json()] *)
Definition json_of (r : response) : M json :=
  match body r with
  | Some j => ret j
  | None => raise JSONDecodeError
  end.

Definition ok (r : response) : bool := Z.eqb (status_code r) 200.

(** [d[k]] on a dict built by the program. *)
Definition getitem (d : list (string * json)) (k : string) : result json :=
  match dict_lookup k d with
  | Some v => Ok v
  | None => Raise KeyError
  end.

Section Program.

(** The Unicode tables of the interpreter. *)
Context {U : unicode}.

(** *** URLs *)

Definition contributors_url (owner repo : string) : string :=
  "https://api.github.com/repos/" ++ owner ++ "/" ++ repo ++ "/contributors".

Definition contributor_stats_url (owner repo : string) : string :=
  "https://api.github.com/repos/" ++ owner ++ "/" ++ repo ++ "/stats/contributors".

Definition user_url (username : string) : string :=
  "https://api.github.com/users/" ++ username.

Definition social_accounts_url (username : string) : string :=
  "https://api.github.com/users/" ++ username ++ "/social_accounts".

Definition exact_search_url (first_name last_name : string) (institution : json)
  : string :=
  "https://pub.orcid.org/v3.0/search?q=given-names:" ++ first_name
  ++ "+AND+family-name:" ++ last_name
  ++ "+AND+affiliation-org-name:" ++ str institution ++ "&rows=10".

Definition broad_search_url (first_name last_name : string) : string :=
  "https://pub.orcid.org/v3.0/search?q=given-names:" ++ first_name
  ++ "+AND+family-name:" ++ last_name ++ "&rows=10".

Definition record_url (orcid : json) : string :=
  "https://pub.orcid.org/v3.0/" ++ str orcid.

Definition orcid_uri (orcid : json) : string :=
  "https://orcid.org/" ++ str orcid.

Definition too_many_warning (num_found : json) (first_name last_name : string)
  : string :=
  "Warning: " ++ str num_found ++ " results found for " ++ first_name ++ " "
  ++ last_name ++ " without affiliation. Returning None.".

Definition no_user_message (username : string) : string :=
  "GitHub user " ++ username ++ " does not exist.".

(** A request to the ORCID registry, search or record. *)
Definition is_registry_url (url : string) : bool :=
  String.prefix "https://pub.orcid.org/" url.

(** *** get_repository_contributors: the pure part *)

(** [sum(week.get(k, 0) for week in weeks)], from the accumulator [acc]. *)
Fixpoint sum_field (k : string) (weeks : list json) (acc : Z) : result Z :=
  match weeks with
  | [] => Ok acc
  | week :: rest =>
      x <-- get_default week k (JNum 0) ;;
      acc' <-- add acc x ;;
      sum_field k rest acc'
  end.

(** [[week.get("w") for week in weeks if week.get("a") or week.get("d")]] *)
Fixpoint active_dates (weeks : list json) : result (list json) :=
  match weeks with
  | [] => Ok []
  | week :: rest =>
      a <-- get week "a" ;;
      c <-- (if truthy a then Ok a else get week "d") ;;
      if truthy c then
        w <-- get week "w" ;;
        ws <-- active_dates rest ;;
        Ok (w :: ws)
      else active_dates rest
  end.

(** The loop over [stats_data] with its [break]: the first entry of the
    author fills in the volume and the dates. [stats.get("weeks")] is
    read once here, the source reads it three times with the same
    result. *)
Fixpoint match_stats (stats_data : list json) (contributor : list (string * json))
  : result (list (string * json)) :=
  match stats_data with
  | [] => Ok contributor
  | stats :: rest =>
      author <-- get stats "author" ;;
      login <-- get author "login" ;;
      mine <-- getitem contributor "login" ;;
      if eq login mine then
        weeks <-- get stats "weeks" ;;
        ws <-- iter weeks ;;
        total_additions <-- sum_field "a" ws 0 ;;
        total_deletions <-- sum_field "d" ws 0 ;;
        let total_changes := total_additions + total_deletions in
        let contributor := dict_set "volume" (JNum total_changes) contributor in
        dates <-- active_dates ws ;;
        Ok (dict_set "contributed_dates" (JList dates) contributor)
      else match_stats rest contributor
  end.

(** *** search_orcid_individual: the pure part *)

(** [name.split(" ")[0]] and [name.split(" ")[-1]] *)
Definition split_name (name : json) : result (string * string) :=
  match name with
  | JStr s => Ok (first_token s, last_token s)
  | _ => Raise AttributeError
  end.

(** ["".join([char for char in name if char.isupper()])] over the
    elements of [name]. *)
Fixpoint upper_chars (chars : list json) : result string :=
  match chars with
  | [] => Ok ""
  | JStr c :: rest =>
      s <-- upper_chars rest ;;
      Ok (if isupper c then c ++ s else s)
  | _ :: _ => Raise AttributeError
  end.

Definition capitalized_affiliation (iAffiliation : json) : result string :=
  organization <-- get iAffiliation "organization" ;;
  name <-- get organization "name" ;;
  chars <-- iter name ;;
  upper_chars chars.

(** The loop over the affiliations of one record: [true] when the
    [return] inside it is reached. *)
Fixpoint affiliation_matches (affiliations : list json) (institution : json)
  : result bool :=
  match affiliations with
  | [] => Ok false
  | iAffiliation :: rest =>
      capitalized <-- capitalized_affiliation iAffiliation ;;
      if eq (JStr capitalized) institution || eq iAffiliation institution
      then Ok true
      else affiliation_matches rest institution
  end.

(** The answer to the [n]-th request of the run when it asks for [url]. *)
Variable net : nat -> string -> response.

(** [requests.get(url)] *)
Definition http_get (url : string) : M response :=
  fun w => (Ok (net (List.length (requests w)) url), sent url w).

(** *** get_repository_contributors *)

(** The body of the loop over [contributors_data]. *)
Definition contributor_of (owner repo : string) (contributor_data : json)
  : M json :=
  login <- lift (get contributor_data "login") ;;
  contributions <- lift (get contributor_data "contributions") ;;
  let contributor :=
    [("login", login); ("contributions", contributions);
     ("contributed_dates", JList [])] in
  stats_response <- http_get (contributor_stats_url owner repo) ;;
  if ok stats_response then
    stats_data <- json_of stats_response ;;
    entries <- lift (iter stats_data) ;;
    contributor <- lift (match_stats entries contributor) ;;
    ret (JDict contributor)
  else ret (JDict contributor).

Fixpoint contributors_loop (owner repo : string) (contributors_data : list json)
  (contributors : list json) : M (list json) :=
  match contributors_data with
  | [] => ret contributors
  | contributor_data :: rest =>
      contributor <- contributor_of owner repo contributor_data ;;
      contributors_loop owner repo rest (contributors ++ [contributor])
  end.

Definition get_repository_contributors (owner repo : string) : M (list json) :=
  response <- http_get (contributors_url owner repo) ;;
  if ok response then
    contributors_data <- json_of response ;;
    items <- lift (iter contributors_data) ;;
    contributors_loop owner repo items []
  else ret [].

(** *** search_github_user_for_orcid *)

(** [re.findall(orcid_regex, str(data))] *)
Definition orcid_matches (data : json) : json :=
  JList (map JStr (Re.findall (str data))).

(** The second half of the function: the social accounts. *)
Definition search_social_accounts (username : string) : M json :=
  response <- http_get (social_accounts_url username) ;;
  if ok response then
    social_accounts_data <- json_of response ;;
    let matches := orcid_matches social_accounts_data in
    if truthy matches then ret matches else ret JNull
  else ret JNull.

Definition search_github_user_for_orcid (username : string) : M json :=
  response <- http_get (user_url username) ;;
  if ok response then
    user_data <- json_of response ;;
    let matches := orcid_matches user_data in
    if truthy matches then ret matches else search_social_accounts username
  else search_social_accounts username.

(** *** get_name_and_institution_from_github_api *)

(** The pair of name and company, or [None] when the function falls off
    its end. *)
Definition get_name_and_institution_from_github_api (username : string)
  : M (option (json * json)) :=
  response <- http_get (user_url username) ;;
  if ok response then
    user_data <- json_of response ;;
    name <- lift (get user_data "name") ;;
    institution <- lift (get user_data "company") ;;
    ret (Some (name, institution))
  else ret None.

(** *** search_orcid_individual *)

(** The loop over the results of the search without affiliation; its
    value is what the function returns ([None] when the loop ends). *)
Fixpoint candidates_loop (results : list json) (search_results : json)
  (first_name last_name : string) (institution : json) : M json :=
  match results with
  | [] => ret JNull
  | result :: rest =>
      num_found <- lift (get search_results "num-found") ;;
      too_many <- lift (gt num_found 10) ;;
      if too_many then
        print (too_many_warning num_found first_name last_name) ;;;
        ret JNull
      else
        sleep_half ;;;
        identifier <- lift (get result "orcid-identifier") ;;
        orcid <- lift (get identifier "path") ;;
        record_response <- http_get (record_url orcid) ;;
        if ok record_response then
          record <- json_of record_response ;;
          activities <- lift (get record "activities-summary") ;;
          employments <- lift (get activities "employments") ;;
          summary <- lift (get employments "employment-summary") ;;
          affiliations <- lift (iter summary) ;;
          found <- lift (affiliation_matches affiliations institution) ;;
          if found then ret (JStr (orcid_uri orcid))
          else candidates_loop rest search_results first_name last_name institution
        else candidates_loop rest search_results first_name last_name institution
  end.

(** The second half of the function: the search on the two names only. *)
Definition search_without_affiliation (first_name last_name : string)
  (institution : json) : M json :=
  response <- http_get (broad_search_url first_name last_name) ;;
  if ok response then
    search_results <- json_of response ;;
    results <- lift (get search_results "result") ;;
    items <- lift (iter results) ;;
    candidates_loop items search_results first_name last_name institution
  else ret JNull.

Definition search_orcid_individual (name institution : json) : M json :=
  names <- lift (split_name name) ;;
  let first_name := fst names in
  let last_name := snd names in
  response <- http_get (exact_search_url first_name last_name institution) ;;
  if ok response then
    search_results <- json_of response ;;
    num_found <- lift (get search_results "num-found") ;;
    if eq num_found (JNum 1) then
      results <- lift (get search_results "result") ;;
      first_result <- lift (index0 results) ;;
      identifier <- lift (get first_result "orcid-identifier") ;;
      lift (get identifier "uri")
    else search_without_affiliation first_name last_name institution
  else search_without_affiliation first_name last_name institution.

(** *** search_github_user_for_orcid_robust *)

Definition search_github_user_for_orcid_robust (username : string) : M json :=
  response <- http_get (user_url username) ;;
  if negb (ok response) then raise (ValueError (no_user_message username))
  else
    orcid_links <- search_github_user_for_orcid username ;;
    match orcid_links with
    | JList _ => lift (index0 orcid_links)
    | JStr _ => ret orcid_links
    | _ =>
        name_affiliation <- get_name_and_institution_from_github_api username ;;
        match name_affiliation with
        | None => raise TypeError
        | Some (name, affiliation) => search_orcid_individual name affiliation
        end
    end.

End Program.

Definition start : world := [].

End Main.

(* ================================================================== *)
(** ** Vocabulary of the specification *)

Module Spec.
Import Py Main.

Local Open Scope string_scope.

(** One weekly activity sample of a contributor. *)
Record sample : Type :=
  { week_start : json; additions : Z; deletions : Z }.

(** A count of a week; a week without the field counts zero lines. *)
Definition count_field (d : list (string * json)) (k : string) : option Z :=
  match dict_lookup k d with
  | None => Some 0
  | Some (JNum n) => Some n
  | Some _ => None
  end.

Definition decode_week (week : json) : option sample :=
  match week with
  | JDict d =>
      match count_field d "a", count_field d "d" with
      | Some a, Some d' =>
          Some {| week_start :=
                    match dict_lookup "w" d with Some w => w | None => JNull end;
                  additions := a; deletions := d' |}
      | _, _ => None
      end
  | _ => None
  end.

Fixpoint decode_weeks (weeks : list json) : option (list sample) :=
  match weeks with
  | [] => Some []
  | week :: rest =>
      match decode_week week, decode_weeks rest with
      | Some s, Some l => Some (s :: l)
      | _, _ => None
      end
  end.

Definition total (l : list Z) : Z := fold_right Z.add 0 l.

(** Contribution volume: the additions of all weeks plus the deletions
    of all weeks. *)
Definition volume (l : list sample) : Z :=
  total (map additions l) + total (map deletions l).

Definition active (s : sample) : bool :=
  negb (Z.eqb (additions s) 0) || negb (Z.eqb (deletions s) 0).

(** The week starts of the weeks with some addition or deletion. *)
Definition activity_dates (l : list sample) : list json :=
  map week_start (filter active l).

(** [stats.get("author").get("login")] *)
Definition author_login (stats : json) : result json :=
  author <-- get stats "author" ;;
  get author "login".

(** The entry names an author, and another one than [login]. *)
Definition other_author (login : json) (stats : json) : bool :=
  match author_login stats with
  | Ok l => negb (eq l login)
  | Raise _ => false
  end.

(** Every entry has an author record with a login, and none of these
    logins is [login]. An entry without an author record makes this
    false: the code does not get past such an entry. *)
Definition all_by_others (login : json) (stats_data : list json) : bool :=
  forallb (other_author login) stats_data.

(** Statistics as the platform sends them: every entry a dict with an
    author and a list of weeks whose counts are numbers. *)
Definition is_dict (x : json) : bool :=
  match x with JDict _ => true | _ => false end.

Definition wf_count (d : list (string * json)) (k : string) : bool :=
  match dict_lookup k d with
  | None | Some (JNum _) | Some (JBool _) => true
  | Some _ => false
  end.

Definition wf_week (week : json) : bool :=
  match week with
  | JDict d => wf_count d "a" && wf_count d "d"
  | _ => false
  end.

Definition wf_entry (stats : json) : bool :=
  match stats with
  | JDict d =>
      match dict_lookup "author" d with
      | Some (JDict _) => true
      | _ => false
      end
      && match dict_lookup "weeks" d with
         | Some (JList weeks) => forallb wf_week weeks
         | _ => false
         end
  | _ => false
  end.

Definition wf_stats_response (r : response) : bool :=
  negb (ok r)
  || match body r with
     | Some (JList stats_data) => forallb wf_entry stats_data
     | _ => false
     end.

(** The search on names and organization does not single out a record:
    it fails, or counts another number of records than one. *)
Definition no_exact_match (r : response) : bool :=
  negb (ok r)
  || match body r with
     | Some search_results =>
         match get search_results "num-found" with
         | Ok num_found => negb (eq num_found (JNum 1))
         | Raise _ => false
         end
     | None => false
     end.

(** The logins of a list of records. *)
Definition logins (l : list json) : list (result json) :=
  map (fun x => get x "login") l.

End Spec.

(* ================================================================== *)
(** ** Scenarios *)

Module Scenario.
Import Py Main.

Local Open Scope string_scope.

(** Tables that know no digit, letter or case beyond ASCII and take
    every character for printable: the scenarios are in ASCII, where
    the tables are not consulted. *)
Definition plain : unicode :=
  {| digit_beyond := fun _ => false;
     word_beyond := fun _ => false;
     upper_beyond := fun _ => false;
     lower_beyond := fun _ => false;
     printable_beyond := fun _ => true |}.

#[local] Existing Instance plain.

Definition not_found : response :=
  {| status_code := 404; body := Some (JDict [("message", JStr "Not Found")]) |}.

Definition ok_json (x : json) : response :=
  {| status_code := 200; body := Some x |}.

Fixpoint serve (table : list (string * response)) (url : string) : response :=
  match table with
  | [] => not_found
  | (u, r) :: rest => if String.eqb u url then r else serve rest url
  end.

(** A network that answers a URL the same way each time. *)
Definition stationary (table : list (string * response)) : nat -> string -> response :=
  fun _ url => serve table url.

(** The network answers from [table] for the first [n] requests and
    with 404 afterwards. *)
Definition until (n : nat) (table : list (string * response))
  : nat -> string -> response :=
  fun i url => if Nat.ltb i n then serve table url else not_found.

Definition profile (login : string) (name company bio : json) : json :=
  JDict [("login", JStr login); ("id", JNum 4242); ("name", name);
         ("company", company); ("bio", bio)].

(** A profile with a link that runs on into a further digit. *)
Definition alice_profile : json :=
  profile "alice" (JStr "Alice Doe") JNull
          (JStr "https://orcid.org/0000-0002-4321-21801").

Definition alice_net : nat -> string -> response :=
  stationary [(user_url "alice", ok_json alice_profile)].

(** A profile with a proper link. *)
Definition erin_profile : json :=
  profile "erin" (JStr "Erin Poe") JNull
          (JStr "see https://orcid.org/0000-0002-4321-2180.").

Definition erin_net : nat -> string -> response :=
  stationary [(user_url "erin", ok_json erin_profile)].

(** An account without a display name. *)
Definition ghost_profile : json := profile "ghost" JNull JNull JNull.

Definition ghost_table : list (string * response) :=
  [(user_url "ghost", ok_json ghost_profile);
   (social_accounts_url "ghost", ok_json (JList []))].

Definition ghost_net : nat -> string -> response := stationary ghost_table.

(** The same account, gone after the third request. *)
Definition vanishing_net : nat -> string -> response := until 3 ghost_table.

(** Nobody by that name. *)
Definition empty_net : nat -> string -> response := stationary [].

Definition candidate (orcid : string) : json :=
  JDict [("orcid-identifier",
          JDict [("uri", JStr ("https://orcid.org/" ++ orcid));
                 ("path", JStr orcid); ("host", JStr "orcid.org")])].

Definition search_page (num_found : Z) (results : list json) : json :=
  JDict [("result", JList results); ("num-found", JNum num_found)].

Definition employment (organization : string) : json :=
  JDict [("department-name", JNull);
         ("organization", JDict [("name", JStr organization)])].

Definition record (organizations : list string) : json :=
  JDict [("activities-summary",
          JDict [("employments",
                  JDict [("employment-summary",
                          JList (map employment organizations))])])].

(** One person of that name in the registry, employed at Indiana
    University. *)
Definition bullock_net : nat -> string -> response :=
  stationary
    [(broad_search_url "Dan" "Bullock",
      ok_json (search_page 1 [candidate "0000-0002-4321-2180"]));
     (record_url (JStr "0000-0002-4321-2180"),
      ok_json (record ["Indiana University"]))].

(** A user whose name and organization single out one record. *)
Definition dave_net : nat -> string -> response :=
  stationary
    [(user_url "dave", ok_json (profile "dave" (JStr "Dave Poe") (JStr "MIT") JNull));
     (social_accounts_url "dave", ok_json (JList []));
     (exact_search_url "Dave" "Poe" (JStr "MIT"),
      ok_json (search_page 1 [candidate "0000-0001-2345-6789"]))].

(** A user with a common name: the search on the names alone counts
    eleven records, of which [page] is listed. *)
Definition carol_net (page : list json) : nat -> string -> response :=
  stationary
    [(user_url "carol", ok_json (profile "carol" (JStr "Carol Roe") (JStr "ACME") JNull));
     (social_accounts_url "carol", ok_json (JList []));
     (exact_search_url "Carol" "Roe" (JStr "ACME"), ok_json (search_page 0 []));
     (broad_search_url "Carol" "Roe", ok_json (search_page 11 page))].

Definition week (w a d : Z) : json :=
  JDict [("w", JNum w); ("a", JNum a); ("d", JNum d); ("c", JNum 1)].

Definition ann_weeks : list json :=
  [week 1682812800 10 2; week 1683417600 0 0; week 1684022400 0 4].

Definition ann_stats : json :=
  JDict [("total", JNum 2); ("weeks", JList ann_weeks);
         ("author", JDict [("login", JStr "ann"); ("id", JNum 7)])].

Definition ann : json := JDict [("login", JStr "ann"); ("contributions", JNum 2)].
Definition bob : json := JDict [("login", JStr "bob"); ("contributions", JNum 1)].

(** A repository with two contributors, one of them without
    statistics. *)
Definition repo_net : nat -> string -> response :=
  stationary
    [(contributors_url "o" "r", ok_json (JList [bob; ann]));
     (contributor_stats_url "o" "r", ok_json (JList [ann_stats]))].

End Scenario.

(* ================================================================== *)
(** ** The repository details *)

Module Details.
Import Py Main.

Local Open Scope string_scope.

(** [s.split(sep)] for a separator of one character: the first piece
    and the pieces after it. *)
Fixpoint split_on (sep : ascii) (s : string) : string * list string :=
  match s with
  | EmptyString => (EmptyString, [])
  | String c s' =>
      let (w, ws) := split_on sep s' in
      if Ascii.eqb c sep then (EmptyString, w :: ws)
      else (String c w, ws)
  end.

Definition pieces_on (sep : ascii) (s : string) : list string :=
  let (w, ws) := split_on sep s in w :: ws.

(** [l[-1]] and [l[-2]] *)
Definition last_piece (l : list string) : result string :=
  match rev l with
  | x :: _ => Ok x
  | [] => Raise IndexError
  end.

Definition second_last_piece (l : list string) : result string :=
  match rev l with
  | _ :: y :: _ => Ok y
  | _ => Raise IndexError
  end.

Definition repository_url (owner name : string) : string :=
  "https://api.github.com/repos/" ++ owner ++ "/" ++ name.

Section Program.

Variable net : nat -> string -> response.

(** The status of the answer is not looked at: the body is decoded
    whatever it is. *)
Definition getTargetRepositoryDetails (repositoryPath : string) : M json :=
  repositoryName <- lift (last_piece (pieces_on "/"%char repositoryPath)) ;;
  repositoryOwner <- lift (second_last_piece (pieces_on "/"%char repositoryPath)) ;;
  response <- http_get net (repository_url repositoryOwner repositoryName) ;;
  json_of response.

End Program.

End Details.

(* ================================================================== *)
(** ** Further vocabulary and scenarios *)

Module Words.
Import Py Main.

Local Open Scope string_scope.

(** The pieces of [name.split(" ")]. *)
Definition tokens (s : string) : list string :=
  let (w, ws) := split_space s in w :: ws.

Definition has_space (s : string) : bool := has_char " "%char s.


Section Acronym.

Context {U : unicode}.

(** What [isupper()] says of one character: uppercase, and neither
    lowercase nor titlecase. *)
Definition capital (ch : string) : bool := upper_char ch && negb (lower_char ch).

(** Acronym derivation: the capital characters of a name, in order. *)
Definition acronym (s : string) : string :=
  String.concat EmptyString (filter capital (chars s)).

End Acronym.

(** The trace of fetching the records at [urls] (the newest first), each
    fetch coming right after a pause of its own. *)
Definition paced_fetches (urls : list string) : list event :=
  flat_map (fun url => [Requested url; Paused]) urls.

(** [result.get("orcid-identifier").get("path")] *)
Definition candidate_path (candidate : json) : result json :=
  identifier <-- get candidate "orcid-identifier" ;;
  get identifier "path".

(** The employment summaries of a registry record. *)
Definition employment_summaries (record : json) : result json :=
  activities <-- get record "activities-summary" ;;
  employments <-- get activities "employments" ;;
  get employments "employment-summary".

(** The count of a search page is an integer of at most ten. *)
Definition few_found (search_results : json) : bool :=
  match get search_results "num-found" with
  | Ok (JNum n) => Z.leb n 10
  | _ => false
  end.

(** The entry of the statistics is one of the author [login]. *)
Definition names_author (login : json) (stats : json) : bool :=
  match Spec.author_login stats with
  | Ok l => eq l login
  | Raise _ => false
  end.

(** The record of a listed contributor before the statistics are
    looked at, and once an entry of the statistics is found. *)
Definition bare_record (login contributions : json) : json :=
  JDict [("login", login); ("contributions", contributions);
         ("contributed_dates", JList [])].

Definition full_record (login contributions : json) (dates : list json)
  (volume : Z) : json :=
  JDict [("login", login); ("contributions", contributions);
         ("contributed_dates", JList dates); ("volume", JNum volume)].

Definition bare_of (contributor_data : json) : json :=
  match get contributor_data "login", get contributor_data "contributions" with
  | Ok login, Ok contributions => bare_record login contributions
  | _, _ => JNull
  end.

End Words.

Module Cases.
Import Py Main Scenario.

Local Open Scope string_scope.

#[local] Existing Instance plain.

(** A user whose link is among the social accounts only. *)
Definition fay_net : nat -> string -> response :=
  stationary
    [(user_url "fay", ok_json (profile "fay" (JStr "Fay Lim") JNull JNull));
     (social_accounts_url "fay",
      ok_json (JList [JDict [("provider", JStr "generic");
                             ("url", JStr "https://orcid.org/0000-0003-1415-9265")]]))].

(** The registry knows one Ann Lee, employed at the Massachusetts
    Institute of Technology. *)
Definition lee_net : nat -> string -> response :=
  stationary
    [(broad_search_url "Ann" "Lee",
      ok_json (search_page 1 [candidate "0000-0002-1825-0097"]));
     (record_url (JStr "0000-0002-1825-0097"),
      ok_json (record ["Harvard University";
                       "Massachusetts Institute of Technology"]))].

(** The registry finds nobody of that name and says so with a null
    result. *)
Definition nobody_net : nat -> string -> response :=
  stationary
    [(exact_search_url "Zed" "Qux" (JStr "ACME"),
      ok_json (JDict [("result", JNull); ("num-found", JNum 0)]));
     (broad_search_url "Zed" "Qux",
      ok_json (JDict [("result", JNull); ("num-found", JNum 0)]))].

(** A count of one with nothing listed. *)
Definition hollow_net : nat -> string -> response :=
  stationary
    [(exact_search_url "Zed" "Qux" (JStr "ACME"), ok_json (search_page 1 []))].

(** The statistics are still being computed: 202 and an empty body. *)
Definition pending_net : nat -> string -> response :=
  stationary
    [(contributors_url "o" "r", ok_json (JList [bob; ann]));
     (contributor_stats_url "o" "r",
      {| status_code := 202; body := Some (JDict []) |})].

(** Statistics with an entry that has no author. *)
Definition orphan_stats : json :=
  JDict [("total", JNum 1); ("weeks", JList []); ("author", JNull)].

Definition orphan_net : nat -> string -> response :=
  stationary
    [(contributors_url "o" "r", ok_json (JList [bob; ann]));
     (contributor_stats_url "o" "r", ok_json (JList [orphan_stats; ann_stats]))].

(** The letters E and e with an acute accent (U+00C9, U+00E9), and
    tables that know these two letters. *)
Definition E_acute : string :=
  String (ascii_of_nat 195) (String (ascii_of_nat 137) EmptyString).

Definition e_acute : string :=
  String (ascii_of_nat 195) (String (ascii_of_nat 169) EmptyString).

Definition accented : unicode :=
  {| digit_beyond := fun _ => false;
     word_beyond := fun ch => String.eqb ch E_acute || String.eqb ch e_acute;
     upper_beyond := fun ch => String.eqb ch E_acute;
     lower_beyond := fun ch => String.eqb ch e_acute;
     printable_beyond := fun ch => String.eqb ch E_acute || String.eqb ch e_acute |}.

(** An employment at the Ecole Polytechnique Federale de Lausanne,
    written with its accents. *)
Definition epfl : string :=
  E_acute ++ "cole Polytechnique F" ++ e_acute ++ "d" ++ e_acute
  ++ "rale de Lausanne".

Definition details_net : nat -> string -> response :=
  stationary
    [(Details.repository_url "DanNBullock" "autoCFF",
      ok_json (JDict [("name", JStr "autoCFF")]))].

End Cases.

(* ================================================================== *)
(** ** Facts about the pattern *)

Import Py Re.
Local Open Scope list_scope.

Lemma last_cons {A} (l : list A) : forall x d, last (x :: l) d = last l x.
Proof.
  induction l as [|y l IH]; intros x d; [reflexivity|].
  change (last (x :: y :: l) d) with (last (y :: l) d).
  now rewrite !IH.
Qed.

Lemma last_map_cons {A} (c : A) pre prev :
  last (map Some (c :: pre)) prev = last (map Some pre) (Some c).
Proof. apply last_cons. Qed.

Lemma char_is_eq c x : char_is c x = true -> x = String c EmptyString.
Proof. apply String.eqb_eq. Qed.

Lemma char_is_refl c : char_is c (String c EmptyString) = true.
Proof. apply String.eqb_refl. Qed.

Lemma keep_some c o m : keep c o = Some m -> exists m', o = Some m' /\ m = c :: m'.
Proof. destruct o; simpl; intros H; inversion H; eauto. Qed.

Lemma strip_prefix_cons_inv a p s l :
  strip_prefix (a :: p) s = Some l ->
  exists s', s = String a EmptyString :: s' /\ strip_prefix p s' = Some l.
Proof.
  simpl. destruct s as [|b s']; [discriminate|].
  destruct (char_is a b) eqn:E; [|discriminate].
  apply char_is_eq in E as ->. eauto.
Qed.

Section Pattern.

Context {U : unicode}.

Lemma match_chr_inv c r prev s m :
  match_here (Chr c :: r) prev s = Some m ->
  exists s' m',
    s = String c EmptyString :: s' /\ m = String c EmptyString :: m' /\
    match_here r (Some (String c EmptyString)) s' = Some m'.
Proof.
  simpl. destruct s as [|x s']; [discriminate|].
  destruct (char_is c x) eqn:E; [|discriminate].
  apply char_is_eq in E as ->.
  intros H. apply keep_some in H as (m' & H & ->). eauto.
Qed.

Lemma match_dig_inv r prev s m :
  match_here (Dig :: r) prev s = Some m ->
  exists x s' m', s = x :: s' /\ m = x :: m' /\ digit_char x = true /\
                  match_here r (Some x) s' = Some m'.
Proof.
  simpl. destruct s as [|x s']; [discriminate|].
  destruct (digit_char x) eqn:E; [|discriminate].
  intros H. apply keep_some in H as (m' & H & ->). eauto 7.
Qed.

Lemma match_digx_inv r prev s m :
  match_here (DigX :: r) prev s = Some m ->
  exists x s' m', s = x :: s' /\ m = x :: m' /\
                  is_check_char x = true /\
                  match_here r (Some x) s' = Some m'.
Proof.
  simpl. destruct s as [|x s']; [discriminate|].
  destruct (is_check_char x) eqn:E; [|discriminate].
  intros H. apply keep_some in H as (m' & H & ->). eauto 7.
Qed.

Lemma match_opt_inv c r prev s m :
  match_here (Opt c :: r) prev s = Some m ->
  (exists s' m',
      s = String c EmptyString :: s' /\ m = String c EmptyString :: m' /\
      match_here r (Some (String c EmptyString)) s' = Some m')
  \/ match_here r prev s = Some m.
Proof.
  simpl. destruct s as [|x s']; [auto|].
  destruct (char_is c x) eqn:C; [|auto].
  apply char_is_eq in C as ->.
  destruct (keep _ (match_here r _ s')) eqn:E; [|auto].
  intros H. inversion H; subst. apply keep_some in E as (m' & E & ->). left. eauto.
Qed.

Lemma match_bnd_inv r prev s m :
  match_here (Bnd :: r) prev s = Some m ->
  boundary prev (hd_error s) = true /\ match_here r prev s = Some m.
Proof. simpl. destruct (boundary prev (hd_error s)); [auto|discriminate]. Qed.

Lemma match_nil_inv prev s m : match_here [] prev s = Some m -> m = [].
Proof. simpl. congruence. Qed.

(** A character of [[0-9X]] is a word character, whatever the tables. *)
Lemma check_char_word x : is_check_char x = true -> word_char x = true.
Proof.
  unfold is_check_char, word_char. destruct (ascii_of x) as [c|]; [|discriminate].
  unfold ascii_word. intros H. apply orb_true_iff in H as [H|H].
  - now rewrite H.
  - apply Ascii.eqb_eq in H. now subst.
Qed.

End Pattern.

Ltac match_inv H :=
  lazymatch type of H with
  | match_here (Chr _ :: _) _ _ = Some _ =>
      let s' := fresh "s" in let m' := fresh "m" in
      apply match_chr_inv in H as (s' & m' & -> & -> & H)
  | match_here (Dig :: _) _ _ = Some _ =>
      let x := fresh "d" in let s' := fresh "s" in let m' := fresh "m" in
      let D := fresh "D" in
      apply match_dig_inv in H as (x & s' & m' & -> & -> & D & H)
  | match_here (DigX :: _) _ _ = Some _ =>
      let x := fresh "d" in let s' := fresh "s" in let m' := fresh "m" in
      let D := fresh "D" in
      apply match_digx_inv in H as (x & s' & m' & -> & -> & D & H)
  end.

Section Scan.

Context {U : unicode}.

(** A match at the head of a text is an identifier link between word
    boundaries. *)
Lemma match_here_sound prev s m :
  match_here orcid_regex prev s = Some m ->
  exists post, s = m ++ post /\ is_pid_link m = true /\
    is_word_opt prev = false /\ is_word_opt (hd_error post) = false.
Proof.
  intros H.
  cbv [orcid_regex groups_regex app lits map list_ascii_of_string repeat] in H.
  apply match_bnd_inv in H as [B H].
  do 4 match_inv H.
  assert (W : is_word_opt prev = false)
    by (unfold boundary in B; destruct (is_word_opt prev);
        [discriminate B|reflexivity]).
  clear B.
  apply match_opt_inv in H as [(s' & m' & -> & -> & H)|H];
    repeat match_inv H;
    apply match_bnd_inv in H as [B' H]; apply match_nil_inv in H as ->;
    (eexists; split; [reflexivity|]);
    match goal with
    | X : is_check_char ?d = true |- _ =>
        pose proof (check_char_word _ X) as Wd
    end;
    (split; [|split; [assumption|]]).
  1, 3: cbv [is_pid_link strip_prefix list_ascii_of_string char_is
             String.eqb Ascii.eqb Bool.eqb pid_groups forallb is_hyphen];
    repeat match goal with
           | X : _ = true |- _ => rewrite X; clear X
           end; reflexivity.
  all: unfold boundary in B'; simpl is_word_opt at 1 in B'; rewrite Wd in B';
    now destruct (is_word_opt (hd_error _)).
Qed.

Lemma pid_groups_inv l :
  pid_groups l = true ->
  exists a1 a2 a3 a4 b1 b2 b3 b4 c1 c2 c3 c4 d1 d2 d3 d4,
    l = [a1; a2; a3; a4; "-"; b1; b2; b3; b4; "-"; c1; c2; c3; c4; "-";
         d1; d2; d3; d4]%string /\
    forallb digit_char [a1; a2; a3; a4; b1; b2; b3; b4; c1; c2; c3; c4; d1; d2; d3]
      = true /\
    is_check_char d4 = true.
Proof.
  intros H.
  do 19 (destruct l as [|? l]; [discriminate H|]).
  destruct l; [|discriminate H].
  unfold pid_groups in H.
  apply andb_true_iff in H as [H X]. apply andb_true_iff in H as [H Hy].
  cbn [forallb] in Hy. unfold is_hyphen in Hy.
  repeat match type of Hy with
         | (char_is _ ?x && _)%bool = true =>
             let E := fresh in
             apply andb_true_iff in Hy as [E Hy]; apply char_is_eq in E; subst x
         end.
  do 16 eexists. split; [reflexivity|]. split; assumption.
Qed.

Lemma orcid_regex_eq :
  orcid_regex =
  Bnd :: lits "http" ++ Opt "s"%char :: lits "://orcid.org/" ++ groups_regex.
Proof. reflexivity. Qed.

Lemma match_here_pid prev l post :
  pid_groups l = true ->
  is_word_opt (hd_error post) = false ->
  match_here groups_regex prev (l ++ post) = Some l.
Proof.
  intros H Hpost.
  apply pid_groups_inv in H
    as (a1 & a2 & a3 & a4 & b1 & b2 & b3 & b4 & c1 & c2 & c3 & c4 & d1 & d2 & d3 & d4
        & -> & D & X).
  cbn [forallb] in D.
  repeat match type of D with
         | (_ && _)%bool = true =>
             let E := fresh "E" in apply andb_true_iff in D as [E D]
         end.
  cbn [groups_regex repeat app match_here].
  repeat match goal with
         | E : digit_char _ = true |- _ => rewrite E; clear E
         end.
  rewrite !char_is_refl. cbn [keep].
  rewrite X. unfold boundary. cbn [is_word_opt]. rewrite (check_char_word _ X), Hpost.
  reflexivity.
Qed.

(** An identifier link between word boundaries is matched where it
    stands. *)
Lemma match_here_complete prev m post :
  is_pid_link m = true ->
  is_word_opt prev = false ->
  is_word_opt (hd_error post) = false ->
  match_here orcid_regex prev (m ++ post) = Some m.
Proof.
  intros H W Hpost. unfold is_pid_link in H. rewrite orcid_regex_eq.
  destruct (strip_prefix (list_ascii_of_string "https://orcid.org/") m) as [l|] eqn:E;
    [|clear E;
      destruct (strip_prefix (list_ascii_of_string "http://orcid.org/") m)
        as [l|] eqn:E; [|discriminate H]];
    cbn [list_ascii_of_string] in E;
    repeat (apply strip_prefix_cons_inv in E as (? & -> & E));
    cbn [strip_prefix] in E; injection E as ->;
    cbv [lits map list_ascii_of_string];
    cbn [app match_here hd_error]; unfold boundary at 1; rewrite W;
    cbn [is_word_opt xorb];
    change (word_char "h") with true; cbn [xorb negb];
    cbv [char_is String.eqb Ascii.eqb Bool.eqb];
    rewrite (match_here_pid _ l post H Hpost); reflexivity.
Qed.

(** The scan reports first the leftmost delimited occurrence. *)
Lemma scan_first pre : forall prev m post,
  is_pid_link m = true ->
  delimited_after prev pre post ->
  exists pre0 m0 post0 ms,
    pre ++ m ++ post = pre0 ++ m0 ++ post0 /\
    is_pid_link m0 = true /\
    delimited_after prev pre0 post0 /\
    scan orcid_regex prev 0 (pre ++ m ++ post) = m0 :: ms /\
    forall pre' m' post',
      pre ++ m ++ post = pre' ++ m' ++ post' ->
      is_pid_link m' = true ->
      delimited_after prev pre' post' ->
      (List.length pre0 <= List.length pre')%nat.
Proof.
  induction pre as [|c pre IH]; intros prev m post Hm [Hb Ha].
  - exists [], m, post.
    pose proof (match_here_complete prev m post Hm Hb Ha) as E.
    destruct m as [|x m]; [discriminate Hm|].
    cbn [app scan]. cbn [app] in E. rewrite E.
    eexists. repeat split; try assumption. intros. cbn. lia.
  - cbn [app scan].
    destruct (match_here orcid_regex prev (c :: pre ++ m ++ post)) as [m1|] eqn:E.
    + apply match_here_sound in E as (post1 & Eq & Hm1 & Hb1 & Ha1).
      exists [], m1, post1. eexists.
      repeat split; try assumption. intros. cbn. lia.
    + rewrite last_map_cons in Hb.
      destruct (IH (Some c) m post Hm (conj Hb Ha))
        as (pre0 & m0 & post0 & ms & Eq & Hm0 & [Hb0 Ha0] & Sc & Least).
      exists (c :: pre0), m0, post0, ms.
      split; [cbn [app]; now rewrite Eq|].
      split; [assumption|].
      split; [split; [now rewrite last_map_cons|assumption]|].
      split; [assumption|].
      intros pre' m' post' Eq' Hm' [Hb' Ha'].
      destruct pre' as [|c' pre'].
      * cbn [app map last] in *.
        pose proof (match_here_complete prev m' post' Hm' Hb' Ha') as E'.
        rewrite <- Eq' in E'. congruence.
      * cbn [app] in Eq'. injection Eq' as -> Eq'.
        rewrite last_map_cons in Hb'.
        specialize (Least pre' m' post' Eq' Hm' (conj Hb' Ha')).
        cbn [List.length]. lia.
Qed.

Lemma findall_first text :
  (exists pre m post, occurs_at (chars text) pre m post /\ delimited pre post) ->
  exists m ms, findall text = m :: ms /\ first_pid text m.
Proof.
  intros (pre & m & post & [Eq Hm] & D).
  destruct (scan_first pre None m post Hm D)
    as (pre0 & m0 & post0 & ms & Eq0 & Hm0 & D0 & Sc & Least).
  exists (String.concat EmptyString m0), (map (String.concat EmptyString) ms).
  split.
  - unfold findall. now rewrite Eq, Sc.
  - exists pre0, m0, post0. split; [reflexivity|].
    split; [split; [congruence|assumption]|].
    split; [assumption|].
    intros pre' m' post' [Eq' Hm'] D'.
    apply (Least pre' m' post'); [congruence|assumption|exact D'].
Qed.

Lemma scan_all_links s : forall prev skip,
  Forall (fun m => is_pid_link m = true) (scan orcid_regex prev skip s).
Proof.
  induction s as [|c s IH]; intros prev skip; cbn [scan]; [constructor|].
  destruct skip as [|k]; [|apply IH].
  destruct (match_here orcid_regex prev (c :: s)) as [m|] eqn:E; [|apply IH].
  constructor; [|apply IH].
  now apply match_here_sound in E as (post & _ & Hm & _).
Qed.

Lemma scan_found_occurs s : forall prev,
  scan orcid_regex prev 0 s <> [] ->
  exists pre m post,
    s = pre ++ m ++ post /\ is_pid_link m = true /\
    delimited_after prev pre post.
Proof.
  induction s as [|c s IH]; intros prev; cbn [scan]; [congruence|].
  destruct (match_here orcid_regex prev (c :: s)) as [m|] eqn:E.
  - intros _. apply match_here_sound in E as (post & Eq & Hm & Hb & Ha).
    exists [], m, post. repeat split; assumption.
  - intros H. destruct (IH (Some c) H) as (pre & m & post & -> & Hm & Hb & Ha).
    exists (c :: pre), m, post. split; [reflexivity|]. split; [assumption|].
    split; [now rewrite last_map_cons|assumption].
Qed.

Lemma findall_empty_spec text :
  findall text = [] <->
  ~ exists pre m post, occurs_at (chars text) pre m post /\ delimited pre post.
Proof.
  split.
  - intros E Hocc. destruct (findall_first _ Hocc) as (m & ms & F & _).
    congruence.
  - intros N. unfold findall.
    destruct (scan orcid_regex None 0 (chars text)) as [|m ms] eqn:E;
      [reflexivity|].
    exfalso. apply N.
    destruct (scan_found_occurs (chars text) None)
      as (pre & m' & post & Eq & Hm & D); [congruence|].
    exists pre, m', post. split; [split; assumption|exact D].
Qed.

End Scan.
(* ================================================================== *)
(** ** Running the program *)

Import Main Spec Scenario.
Local Open Scope string_scope.

Lemma bind_ok {A B} (c : M A) (k : A -> M B) w a w' :
  c w = (Ok a, w') -> bind c k w = k a w'.
Proof. unfold bind. now intros ->. Qed.

Lemma orcid_matches_shape {U : unicode} data :
  truthy (orcid_matches data) = true ->
  exists m ms, orcid_matches data = JList (JStr m :: ms).
Proof.
  unfold orcid_matches. destruct (findall (str data)) as [|m ms]; [discriminate|].
  intros _. exists m, (map JStr ms). reflexivity.
Qed.

Ltac mrun :=
  unfold bind, rbind, http_get, ret, raise, lift, print, sleep_half;
  cbn [fst snd sent printed slept requests stdout sleeps List.length].

(** *** The scan of the profile and of the social accounts *)

Section Platform.
Context {U : unicode}.
Variable net : nat -> string -> response.

Lemma social_scan_shape username w v :
  fst (search_social_accounts net username w) = Ok v ->
  v = JNull \/ exists m ms, v = JList (JStr m :: ms).
Proof.
  unfold search_social_accounts. mrun.
  destruct (ok _); [|mrun; intros [= <-]; auto].
  unfold json_of. destruct (body _) as [data|]; [|discriminate].
  mrun. destruct (truthy (orcid_matches data)) eqn:T; mrun; intros [= <-]; auto.
  right. now apply orcid_matches_shape.
Qed.

(** C10: the scan of the profile and of the social accounts,
    [search_github_user_for_orcid], never returns an empty list. When it
    returns, its value is [None] or a list with a first element, so
    that the caller's [orcid_links[0]] on a list is within range. *)
Theorem scan_result_nonempty username w v :
  fst (search_github_user_for_orcid net username w) = Ok v ->
  v = JNull \/ exists m ms, v = JList (JStr m :: ms) /\ index0 v = Ok (JStr m).
Proof.
  intros H.
  assert (S : v = JNull \/ exists m ms, v = JList (JStr m :: ms)).
  { revert H.
    unfold search_github_user_for_orcid. mrun.
    destruct (ok _); [|apply social_scan_shape].
    unfold json_of. destruct (body _) as [data|]; [|discriminate].
    mrun. destruct (truthy (orcid_matches data)) eqn:T.
    - mrun. intros [= <-]. right. now apply orcid_matches_shape.
    - apply social_scan_shape. }
  destruct S as [->|(m & ms & ->)]; [auto|]. right. exists m, ms. auto.
Qed.

(** C4: when the first fetch of the profile answers with another
    status than 200, [search_github_user_for_orcid_robust] raises the
    error that the user does not exist; it does not return [None]. *)
Theorem missing_user_raises username w :
  status_code (net (List.length (requests w)) (user_url username)) <> 200 ->
  fst (search_github_user_for_orcid_robust net username w)
  = Raise (ValueError (no_user_message username)).
Proof.
  intros H. unfold search_github_user_for_orcid_robust. mrun.
  unfold ok. apply Z.eqb_neq in H. rewrite H. reflexivity.
Qed.

(** C3, amended: when the user exists and the serialized profile
    contains an identifier link (its digits being what the pattern's
    [\d] takes for digits) standing between word boundaries (no word
    character, that is no letter, digit or underscore of any script,
    right before or right after it), the resolution returns the leftmost
    such link, after the two fetches of the profile and without any
    request to the registry; this for whatever the Unicode tables
    are. *)
Theorem profile_link_returned username w data :
  status_code (net (List.length (requests w)) (user_url username)) = 200 ->
  net (S (List.length (requests w))) (user_url username)
  = {| status_code := 200; body := Some data |} ->
  (exists pre m post,
      occurs_at (chars (str data)) pre m post /\ delimited pre post) ->
  exists m,
    first_pid (str data) m /\
    fst (search_github_user_for_orcid_robust net username w) = Ok (JStr m) /\
    requests (snd (search_github_user_for_orcid_robust net username w))
    = user_url username :: user_url username :: requests w /\
    is_registry_url (user_url username) = false.
Proof.
  intros H1 H2 Hocc.
  destruct (findall_first _ Hocc) as (m & ms & F & First).
  exists m. split; [assumption|].
  unfold search_github_user_for_orcid_robust, search_github_user_for_orcid. mrun.
  unfold ok. rewrite H1. cbn [Z.eqb Pos.eqb negb List.length requests sent].
  rewrite H2. unfold json_of, ret.
  cbn [status_code body Z.eqb Pos.eqb negb].
  unfold orcid_matches. rewrite F. cbn [map truthy index0 fst snd requests sent].
  repeat split.
Qed.
End Platform.

(** *** The searches in the registry *)

Section Registry.
Context {U : unicode}.
Variable net : nat -> string -> response.

(** Once the user exists, nothing is found on the platform and the
    profile gives a name, the resolution is the registry search. *)
Lemma robust_reaches_registry username w w2 w3 name institution :
  status_code (net (List.length (requests w)) (user_url username)) = 200 ->
  search_github_user_for_orcid net username (sent (user_url username) w)
  = (Ok JNull, w2) ->
  get_name_and_institution_from_github_api net username w2
  = (Ok (Some (name, institution)), w3) ->
  search_github_user_for_orcid_robust net username w
  = search_orcid_individual net name institution w3.
Proof.
  intros H1 H2 H3. unfold search_github_user_for_orcid_robust.
  unfold bind at 1, http_get at 1. unfold ok. rewrite H1.
  cbn [Z.eqb Pos.eqb negb].
  rewrite (bind_ok _ _ _ _ _ H2). rewrite (bind_ok _ _ _ _ _ H3). reflexivity.
Qed.

Lemma exact_search_hit name institution w search_results results first_result
      identifier pid :
  net (List.length (requests w))
      (exact_search_url (first_token name) (last_token name) institution)
  = {| status_code := 200; body := Some search_results |} ->
  get search_results "num-found" = Ok (JNum 1) ->
  get search_results "result" = Ok results ->
  index0 results = Ok first_result ->
  get first_result "orcid-identifier" = Ok identifier ->
  get identifier "uri" = Ok pid ->
  search_orcid_individual net (JStr name) institution w
  = (Ok pid,
     sent (exact_search_url (first_token name) (last_token name) institution) w).
Proof.
  intros H N R I O Hu. unfold search_orcid_individual. mrun.
  cbn [split_name fst snd]. rewrite H. unfold ok, json_of, ret.
  cbn [status_code body Z.eqb Pos.eqb]. rewrite N. cbn [eq Z.eqb Pos.eqb].
  now rewrite R, I, O, Hu.
Qed.

Lemma exact_search_miss name institution w :
  no_exact_match
    (net (List.length (requests w))
         (exact_search_url (first_token name) (last_token name) institution))
  = true ->
  search_orcid_individual net (JStr name) institution w
  = search_without_affiliation net (first_token name) (last_token name) institution
      (sent (exact_search_url (first_token name) (last_token name) institution) w).
Proof.
  unfold no_exact_match, search_orcid_individual. mrun. cbn [split_name fst snd].
  destruct (net _ _) as [st bd]. unfold ok, json_of, ret, raise.
  cbn [status_code body].
  destruct (Z.eqb st 200); cbn [negb orb]; [|reflexivity].
  destruct bd as [sr|]; [|discriminate].
  destruct (get sr "num-found") as [nf|]; [|discriminate].
  intros H. apply negb_true_iff in H. now rewrite H.
Qed.

Lemma broad_search_too_many first_name last_name institution w search_results n
      result rest :
  net (List.length (requests w)) (broad_search_url first_name last_name)
  = {| status_code := 200; body := Some search_results |} ->
  get search_results "num-found" = Ok (JNum n) ->
  10 < n ->
  get search_results "result" = Ok (JList (result :: rest)) ->
  search_without_affiliation net first_name last_name institution w
  = (Ok JNull,
     printed (too_many_warning (JNum n) first_name last_name)
             (sent (broad_search_url first_name last_name) w)).
Proof.
  intros H N L R. unfold search_without_affiliation. mrun.
  rewrite H. unfold ok, json_of, ret. cbn [status_code body Z.eqb Pos.eqb].
  rewrite R. cbn [iter candidates_loop]. mrun. rewrite N. cbn [gt].
  apply Z.ltb_lt in L. now rewrite L.
Qed.

(** C5: for a user that exists, with no identifier on the profile or
    the social accounts and with a display name, when the search on
    given name, family name and organization answers 200: if it counts
    exactly one record, the resolution returns the identifier of that
    record; if it counts any other number, the resolution goes on as the
    search on the two names alone, issued right after. *)
Theorem exact_match_returned username w w2 w3 name institution search_results :
  status_code (net (List.length (requests w)) (user_url username)) = 200 ->
  search_github_user_for_orcid net username (sent (user_url username) w)
  = (Ok JNull, w2) ->
  get_name_and_institution_from_github_api net username w2
  = (Ok (Some (JStr name, institution)), w3) ->
  net (List.length (requests w3))
      (exact_search_url (first_token name) (last_token name) institution)
  = {| status_code := 200; body := Some search_results |} ->
  (forall results first_result identifier pid,
      get search_results "num-found" = Ok (JNum 1) ->
      get search_results "result" = Ok results ->
      index0 results = Ok first_result ->
      get first_result "orcid-identifier" = Ok identifier ->
      get identifier "uri" = Ok pid ->
      fst (search_github_user_for_orcid_robust net username w) = Ok pid)
  /\
  (forall n,
      get search_results "num-found" = Ok (JNum n) ->
      n <> 1 ->
      search_github_user_for_orcid_robust net username w
      = search_without_affiliation net (first_token name) (last_token name)
          institution
          (sent (exact_search_url (first_token name) (last_token name) institution)
                w3)).
Proof.
  intros H1 H2 H3 H4.
  rewrite (robust_reaches_registry _ _ _ _ _ _ H1 H2 H3). split.
  - intros results first_result identifier pid N R I O Hu.
    now rewrite (exact_search_hit _ _ _ _ _ _ _ _ H4 N R I O Hu).
  - intros n N Hn. apply exact_search_miss.
    unfold no_exact_match. rewrite H4. cbn [body]. rewrite N. cbn [eq].
    apply Z.eqb_neq in Hn. rewrite Hn. apply orb_true_r.
Qed.

(** X24: when the user exists, has no identifier on the platform and
    has a display name, the search with the organization singles out no
    record and the search on the two names alone counts more than ten
    records and lists at least one of them, the resolution returns
    [None], prints the warning, and stops at the search request: no
    record is fetched and no pause is taken. *)
Theorem too_many_abandons username w w2 w3 name institution search_results n
        result rest :
  status_code (net (List.length (requests w)) (user_url username)) = 200 ->
  search_github_user_for_orcid net username (sent (user_url username) w)
  = (Ok JNull, w2) ->
  get_name_and_institution_from_github_api net username w2
  = (Ok (Some (JStr name, institution)), w3) ->
  no_exact_match
    (net (List.length (requests w3))
         (exact_search_url (first_token name) (last_token name) institution))
  = true ->
  net (S (List.length (requests w3)))
      (broad_search_url (first_token name) (last_token name))
  = {| status_code := 200; body := Some search_results |} ->
  get search_results "num-found" = Ok (JNum n) ->
  10 < n ->
  get search_results "result" = Ok (JList (result :: rest)) ->
  search_github_user_for_orcid_robust net username w
  = (Ok JNull,
     printed (too_many_warning (JNum n) (first_token name) (last_token name))
       (sent (broad_search_url (first_token name) (last_token name))
          (sent (exact_search_url (first_token name) (last_token name) institution)
             w3))).
Proof.
  intros H1 H2 H3 H4 H5 N L R.
  rewrite (robust_reaches_registry _ _ _ _ _ _ H1 H2 H3).
  rewrite (exact_search_miss _ _ _ H4).
  now rewrite (broad_search_too_many _ _ institution (sent _ w3) _ _ _ _ H5 N L R).
Qed.

End Registry.


(* ================================================================== *)
(** ** The aggregation of contributors *)

(** *** Dictionaries *)

Lemma dict_lookup_set_other k k' v d :
  String.eqb k k' = false ->
  dict_lookup k (dict_set k' v d) = dict_lookup k d.
Proof.
  intros Hk. induction d as [|[k0 v0] d IH]; cbn [dict_set dict_lookup].
  - now rewrite Hk.
  - destruct (String.eqb_spec k' k0) as [->|]; cbn [dict_lookup].
    + now rewrite Hk.
    + now rewrite IH.
Qed.

Lemma dict_lookup_set_same k v d : dict_lookup k (dict_set k v d) = Some v.
Proof.
  induction d as [|[k0 v0] d IH]; cbn [dict_set dict_lookup].
  - now rewrite String.eqb_refl.
  - destruct (String.eqb_spec k k0) as [->|Hk]; cbn [dict_lookup].
    + now rewrite String.eqb_refl.
    + apply String.eqb_neq in Hk. now rewrite Hk.
Qed.

(** *** Weeks *)

Lemma count_field_get d k n :
  count_field d k = Some n ->
  (dict_lookup k d = None /\ n = 0) \/ dict_lookup k d = Some (JNum n).
Proof.
  unfold count_field. destruct (dict_lookup k d) as [[]|]; try discriminate.
  - intros [= <-]. now right.
  - intros [= <-]. now left.
Qed.

Lemma sum_field_additions weeks : forall samples acc,
  decode_weeks weeks = Some samples ->
  sum_field "a" weeks acc = Ok (acc + total (map additions samples)).
Proof.
  induction weeks as [|week weeks IH]; intros samples acc; cbn [decode_weeks].
  - intros [= <-]. cbn. now rewrite Z.add_0_r.
  - destruct (decode_week week) as [s|] eqn:Ew; [|discriminate].
    destruct (decode_weeks weeks) as [l|] eqn:El; [|discriminate].
    intros [= <-]. cbn [sum_field map total fold_right].
    unfold decode_week in Ew. destruct week as [| | | | |d]; try discriminate.
    destruct (count_field d "a") as [a|] eqn:Ea; [|discriminate].
    destruct (count_field d "d") as [d'|] eqn:Ed; [|discriminate].
    injection Ew as <-. cbn [additions].
    unfold get_default, rbind.
    destruct (count_field_get _ _ _ Ea) as [[-> ->]| ->]; cbn [add];
      rewrite (IH l _ eq_refl); unfold total; f_equal; lia.
Qed.

Lemma sum_field_deletions weeks : forall samples acc,
  decode_weeks weeks = Some samples ->
  sum_field "d" weeks acc = Ok (acc + total (map deletions samples)).
Proof.
  induction weeks as [|week weeks IH]; intros samples acc; cbn [decode_weeks].
  - intros [= <-]. cbn. now rewrite Z.add_0_r.
  - destruct (decode_week week) as [s|] eqn:Ew; [|discriminate].
    destruct (decode_weeks weeks) as [l|] eqn:El; [|discriminate].
    intros [= <-]. cbn [sum_field map total fold_right].
    unfold decode_week in Ew. destruct week as [| | | | |d]; try discriminate.
    destruct (count_field d "a") as [a|] eqn:Ea; [|discriminate].
    destruct (count_field d "d") as [d'|] eqn:Ed; [|discriminate].
    injection Ew as <-. cbn [deletions].
    unfold get_default, rbind.
    destruct (count_field_get _ _ _ Ed) as [[-> ->]| ->]; cbn [add];
      rewrite (IH l _ eq_refl); unfold total; f_equal; lia.
Qed.

Lemma active_dates_decoded weeks : forall samples,
  decode_weeks weeks = Some samples ->
  active_dates weeks = Ok (activity_dates samples).
Proof.
  induction weeks as [|week weeks IH]; intros samples; cbn [decode_weeks].
  - now intros [= <-].
  - destruct (decode_week week) as [s|] eqn:Ew; [|discriminate].
    destruct (decode_weeks weeks) as [l|] eqn:El; [|discriminate].
    intros [= <-]. cbn [active_dates].
    unfold decode_week in Ew. destruct week as [| | | | |d]; try discriminate.
    destruct (count_field d "a") as [a|] eqn:Ea; [|discriminate].
    destruct (count_field d "d") as [d'|] eqn:Ed; [|discriminate].
    injection Ew as <-.
    unfold activity_dates. cbn [filter]. unfold active at 1.
    cbn [additions deletions].
    unfold get, get_default, rbind. rewrite (IH l eq_refl).
    destruct (count_field_get _ _ _ Ea) as [[-> ->]| ->];
      destruct (count_field_get _ _ _ Ed) as [[-> ->]| ->];
      cbn [truthy];
      try (destruct (Z.eqb a 0) eqn:Ea0); try (destruct (Z.eqb d' 0) eqn:Ed0);
      cbn [truthy Z.eqb negb orb map week_start]; rewrite ?Ea0, ?Ed0;
      cbn [truthy Z.eqb negb orb map week_start]; reflexivity.
Qed.

(** *** The loop over the statistics *)

Lemma match_stats_miss login stats_data contributor :
  all_by_others login stats_data = true ->
  dict_lookup "login" contributor = Some login ->
  match_stats stats_data contributor = Ok contributor.
Proof.
  intros H L. induction stats_data as [|stats rest IH]; [reflexivity|].
  cbn [all_by_others forallb] in H. apply andb_true_iff in H as [H1 H2].
  cbn [match_stats]. unfold other_author, author_login, rbind in H1.
  unfold rbind, getitem. rewrite L.
  destruct (get stats "author") as [author|]; [|discriminate].
  destruct (get author "login") as [l|]; [|discriminate].
  apply negb_true_iff in H1. rewrite H1. now apply IH.
Qed.

Lemma match_stats_hit login before entry after contributor author_name weeks samples :
  all_by_others login before = true ->
  dict_lookup "login" contributor = Some login ->
  author_login entry = Ok author_name ->
  eq author_name login = true ->
  get entry "weeks" = Ok (JList weeks) ->
  decode_weeks weeks = Some samples ->
  match_stats (before ++ entry :: after) contributor
  = Ok (dict_set "contributed_dates" (JList (activity_dates samples))
          (dict_set "volume" (JNum (volume samples)) contributor)).
Proof.
  intros H L A E W D. induction before as [|stats rest IH].
  - cbn [app match_stats]. unfold author_login, rbind in A.
    unfold rbind, getitem. rewrite L.
    destruct (get entry "author") as [author|]; [|discriminate].
    rewrite A, E, W. cbn [iter].
    rewrite (sum_field_additions _ _ _ D), (sum_field_deletions _ _ _ D).
    now rewrite (active_dates_decoded _ _ D).
  - cbn [all_by_others forallb] in H. apply andb_true_iff in H as [H1 H2].
    cbn [app match_stats]. unfold other_author, author_login, rbind in H1.
    unfold rbind, getitem. rewrite L.
    destruct (get stats "author") as [author|]; [|discriminate].
    destruct (get author "login") as [l|]; [|discriminate].
    apply negb_true_iff in H1. rewrite H1. now apply IH.
Qed.

Lemma match_stats_login stats_data : forall contributor contributor',
  match_stats stats_data contributor = Ok contributor' ->
  dict_lookup "login" contributor' = dict_lookup "login" contributor.
Proof.
  induction stats_data as [|stats rest IH]; intros c c'; cbn [match_stats].
  - now intros [= <-].
  - unfold rbind.
    destruct (get stats "author") as [author|]; [|discriminate].
    destruct (get author "login") as [l|]; [|discriminate].
    destruct (getitem c "login") as [mine|]; [|discriminate].
    destruct (eq l mine); [|apply IH].
    destruct (get stats "weeks") as [weeks|]; [|discriminate].
    destruct (iter weeks) as [ws|]; [|discriminate].
    destruct (sum_field "a" ws 0) as [ta|]; [|discriminate].
    destruct (sum_field "d" ws 0) as [td|]; [|discriminate].
    destruct (active_dates ws) as [dates|]; [|discriminate].
    intros [= <-]. now rewrite !dict_lookup_set_other.
Qed.

Lemma sum_field_total k weeks : forall acc,
  forallb wf_week weeks = true ->
  (k = "a" \/ k = "d") ->
  exists z, sum_field k weeks acc = Ok z.
Proof.
  induction weeks as [|week weeks IH]; intros acc H Hk; [now exists acc|].
  cbn [forallb] in H. apply andb_true_iff in H as [H1 H2].
  destruct week as [| | | | |d]; try discriminate.
  cbn [wf_week] in H1. apply andb_true_iff in H1 as [Ha Hd].
  assert (Hc : wf_count d k = true) by (destruct Hk; subst; assumption).
  cbn [sum_field]. unfold get_default, rbind. unfold wf_count in Hc.
  destruct (dict_lookup k d) as [[]|]; try discriminate; cbn [add]; now apply IH.
Qed.

Lemma active_dates_total weeks :
  forallb wf_week weeks = true -> exists l, active_dates weeks = Ok l.
Proof.
  induction weeks as [|week weeks IH]; intros H; [now exists []|].
  cbn [forallb] in H. apply andb_true_iff in H as [H1 H2].
  destruct (IH H2) as [l El].
  destruct week as [| | | | |d]; try discriminate.
  cbn [active_dates]. unfold get, get_default, rbind. rewrite El.
  destruct (truthy _); [destruct (truthy _)|destruct (truthy _)]; eauto.
Qed.

Lemma match_stats_total stats_data contributor login :
  forallb wf_entry stats_data = true ->
  dict_lookup "login" contributor = Some login ->
  exists contributor', match_stats stats_data contributor = Ok contributor'.
Proof.
  intros H L. induction stats_data as [|stats rest IH]; [now exists contributor|].
  cbn [forallb] in H. apply andb_true_iff in H as [H1 H2].
  destruct stats as [| | | | |d]; try discriminate.
  cbn [wf_entry] in H1. apply andb_true_iff in H1 as [Ha Hw].
  cbn [match_stats]. unfold get, get_default, rbind, getitem. rewrite L.
  destruct (dict_lookup "author" d) as [[| | | | |author]|]; try discriminate.
  destruct (eq _ login); [|now apply IH].
  destruct (dict_lookup "weeks" d) as [[| | | |weeks|]|]; try discriminate.
  cbn [iter].
  destruct (sum_field_total "a" weeks 0 Hw (or_introl eq_refl)) as [ta ->].
  destruct (sum_field_total "d" weeks 0 Hw (or_intror eq_refl)) as [td ->].
  destruct (active_dates_total weeks Hw) as [dates ->]. eauto.
Qed.

(** *** The loop over the contributors *)

Section Aggregation.
Variable net : nat -> string -> response.

Lemma get_login_dict x login :
  get x "login" = Ok login -> exists d, x = JDict d.
Proof. destruct x; try discriminate. eauto. Qed.

(** What the loop body yields, whatever the statistics are: a record
    with the login of the listed contributor. *)
Lemma contributor_of_login owner repo contributor_data w c w' :
  contributor_of net owner repo contributor_data w = (Ok c, w') ->
  get c "login" = get contributor_data "login".
Proof.
  unfold contributor_of. mrun.
  destruct contributor_data as [| | | | |d]; try discriminate.
  cbn [get get_default].
  destruct (ok _).
  - unfold json_of, ret, raise. destruct (body _) as [stats|]; [|discriminate].
    destruct (iter stats) as [entries|]; [|discriminate].
    destruct (match_stats entries _) as [c'|] eqn:E; [|discriminate].
    intros [= <- _]. cbn [get get_default].
    now rewrite (match_stats_login _ _ _ E).
  - now intros [= <- _].
Qed.

Lemma contributors_loop_logins owner repo contributors_data :
  forall contributors w cs w',
    contributors_loop net owner repo contributors_data contributors w = (Ok cs, w') ->
    exists new, cs = (contributors ++ new)%list /\ logins new = logins contributors_data.
Proof.
  induction contributors_data as [|x rest IH]; intros acc w cs w';
    cbn [contributors_loop].
  - intros [= <- _]. exists []. now rewrite app_nil_r.
  - unfold bind.
    destruct (contributor_of net owner repo x w) as [[c|e] w1] eqn:E;
      [|discriminate].
    intros H. apply IH in H as (new & -> & Hl).
    exists (c :: new). rewrite <- app_assoc. split; [reflexivity|].
    cbn [logins map]. f_equal; [|exact Hl].
    exact (contributor_of_login _ _ _ _ _ _ E).
Qed.

Lemma contributor_of_total owner repo contributor_data w :
  is_dict contributor_data = true ->
  wf_stats_response
    (net (List.length (requests w)) (contributor_stats_url owner repo)) = true ->
  exists c w', contributor_of net owner repo contributor_data w = (Ok c, w').
Proof.
  intros Hd Hw. destruct contributor_data as [| | | | |d]; try discriminate.
  unfold contributor_of. mrun. cbn [get get_default].
  unfold wf_stats_response in Hw.
  destruct (ok _); cbn [negb orb] in Hw; [|eauto].
  unfold json_of, ret.
  destruct (body _) as [[| | | |entries|]|]; try discriminate.
  cbn [iter].
  destruct (match_stats_total entries
              [("login", match dict_lookup "login" d with Some v => v | None => JNull end);
               ("contributions",
                match dict_lookup "contributions" d with Some v => v | None => JNull end);
               ("contributed_dates", JList [])] _ Hw eq_refl) as [c' ->].
  eauto.
Qed.

Lemma contributors_loop_total owner repo contributors_data :
  forallb is_dict contributors_data = true ->
  (forall n, wf_stats_response (net n (contributor_stats_url owner repo)) = true) ->
  forall contributors w,
    exists cs w',
      contributors_loop net owner repo contributors_data contributors w = (Ok cs, w').
Proof.
  intros Hd Hw. induction contributors_data as [|x rest IH]; intros acc w;
    cbn [contributors_loop]; [unfold ret; eauto|].
  cbn [forallb] in Hd. apply andb_true_iff in Hd as [Hx Hrest].
  destruct (contributor_of_total owner repo x w Hx (Hw _)) as (c & w1 & E).
  rewrite (bind_ok _ _ _ _ _ E). now apply IH.
Qed.

(** X25: for a listed contributor, when every entry of the statistics
    has an author record and none of these authors has the login of the
    contributor, the loop body yields a record with that login, without
    a volume and with an empty list of dates, and the loop goes on with
    the remaining contributors. *)
Theorem unmatched_contributor owner repo contributor_data w login stats_data :
  get contributor_data "login" = Ok login ->
  net (List.length (requests w)) (contributor_stats_url owner repo)
  = {| status_code := 200; body := Some (JList stats_data) |} ->
  all_by_others login stats_data = true ->
  exists contributor w',
    contributor_of net owner repo contributor_data w = (Ok (JDict contributor), w') /\
    dict_lookup "login" contributor = Some login /\
    dict_lookup "volume" contributor = None /\
    dict_lookup "contributed_dates" contributor = Some (JList []) /\
    forall rest contributors,
      contributors_loop net owner repo (contributor_data :: rest) contributors w
      = contributors_loop net owner repo rest
          (contributors ++ [JDict contributor]) w'.
Proof.
  intros L H N. destruct (get_login_dict _ _ L) as [d ->].
  cbn [get get_default] in L. injection L as L.
  assert (E : contributor_of net owner repo (JDict d) w
              = (Ok (JDict [("login", login);
                            ("contributions",
                             match dict_lookup "contributions" d with
                             | Some v => v | None => JNull end);
                            ("contributed_dates", JList [])]),
                 sent (contributor_stats_url owner repo) w)).
  { unfold contributor_of. mrun. cbn [get get_default]. rewrite L, H.
    unfold ok, json_of, ret. cbn [status_code body Z.eqb Pos.eqb iter].
    now rewrite (match_stats_miss login). }
  do 2 eexists. split; [exact E|]. repeat split.
  intros rest acc. cbn [contributors_loop]. now rewrite (bind_ok _ _ _ _ _ E).
Qed.

(** C8: for a listed contributor whose login is the author of an entry
    of the statistics (the first one in the response), the recorded
    volume is the sum of the additions of all weeks plus the sum of
    their deletions, and the recorded dates are the week starts of the
    weeks with a nonzero addition or deletion count, in the order of
    the weeks. *)
Theorem matched_volume_and_dates owner repo contributor_data w login before entry
        after author_name weeks samples :
  get contributor_data "login" = Ok login ->
  net (List.length (requests w)) (contributor_stats_url owner repo)
  = {| status_code := 200; body := Some (JList (before ++ entry :: after)) |} ->
  all_by_others login before = true ->
  author_login entry = Ok author_name ->
  eq author_name login = true ->
  get entry "weeks" = Ok (JList weeks) ->
  decode_weeks weeks = Some samples ->
  exists contributor w',
    contributor_of net owner repo contributor_data w = (Ok (JDict contributor), w') /\
    dict_lookup "volume" contributor = Some (JNum (volume samples)) /\
    dict_lookup "contributed_dates" contributor
    = Some (JList (activity_dates samples)).
Proof.
  intros L H N A E W D. destruct (get_login_dict _ _ L) as [d ->].
  cbn [get get_default] in L. injection L as L.
  unfold contributor_of. mrun. cbn [get get_default]. rewrite L, H.
  unfold ok, json_of, ret. cbn [status_code body Z.eqb Pos.eqb iter].
  rewrite (match_stats_hit login before entry after _ author_name weeks samples)
    by (assumption || reflexivity).
  do 2 eexists. split; [reflexivity|]. split.
  - rewrite dict_lookup_set_other by reflexivity. apply dict_lookup_set_same.
  - apply dict_lookup_set_same.
Qed.

(** C9: when the listing of contributors answers with another status
    than 200, the aggregation returns the empty list without raising.
    When it answers 200 with a list, the records returned carry the
    logins of the listing in the same order, and with well-formed
    statistics the aggregation does return. *)
Theorem listing_order_preserved owner repo w :
  (status_code (net (List.length (requests w)) (contributors_url owner repo)) <> 200 ->
   get_repository_contributors net owner repo w
   = (Ok [], sent (contributors_url owner repo) w))
  /\
  (forall contributors_data,
      net (List.length (requests w)) (contributors_url owner repo)
      = {| status_code := 200; body := Some (JList contributors_data) |} ->
      (forall contributors w',
          get_repository_contributors net owner repo w = (Ok contributors, w') ->
          logins contributors = logins contributors_data)
      /\
      (forallb is_dict contributors_data = true ->
       (forall n,
           wf_stats_response (net n (contributor_stats_url owner repo)) = true) ->
       exists contributors w',
         get_repository_contributors net owner repo w = (Ok contributors, w'))).
Proof.
  split.
  - intros H. unfold get_repository_contributors. mrun. unfold ok.
    apply Z.eqb_neq in H. now rewrite H.
  - intros items H.
    assert (E : get_repository_contributors net owner repo w
                = contributors_loop net owner repo items []
                    (sent (contributors_url owner repo) w)).
    { unfold get_repository_contributors. mrun. rewrite H. reflexivity. }
    rewrite E. split.
    + intros cs w' R. apply contributors_loop_logins in R as (new & -> & Hl).
      exact Hl.
    + intros Hd Hw. now apply contributors_loop_total.
Qed.

End Aggregation.

(* ================================================================== *)
(** ** The comparison of affiliations *)

Section Affiliations.
Context {U : unicode}.

(** An affiliation whose capitals spell the declared organization is
    accepted, whatever follows it. *)
Lemma acronym_accepted before affiliation after institution :
  affiliation_matches before (JStr institution) = Ok false ->
  capitalized_affiliation affiliation = Ok institution ->
  affiliation_matches (before ++ affiliation :: after) (JStr institution) = Ok true.
Proof.
  intros H C. induction before as [|x rest IH].
  - cbn [app affiliation_matches]. rewrite C. cbn [rbind eq].
    now rewrite String.eqb_refl.
  - cbn [app affiliation_matches] in *. unfold rbind in *.
    destruct (capitalized_affiliation x) as [c|]; [|discriminate].
    destruct (eq (JStr c) (JStr institution) || eq x (JStr institution))%bool;
      [discriminate|now apply IH].
Qed.

(** The second comparison of the loop is between the affiliation record
    and the declared organization: it fails for every organization that
    is a string. *)
Lemma record_never_equals_string affiliation capitalized institution :
  capitalized_affiliation affiliation = Ok capitalized ->
  eq affiliation (JStr institution) = false.
Proof. destruct affiliation; try discriminate. reflexivity. Qed.

End Affiliations.

(* ================================================================== *)
(** ** Splitting names and paths *)

Import Details Words.

Lemma split_space_on s : split_space s = split_on " "%char s.
Proof. induction s as [|c s IH]; [reflexivity|]. cbn. now rewrite IH. Qed.

Lemma pieces_on_cons sep c s :
  pieces_on sep (String c s)
  = if Ascii.eqb c sep then EmptyString :: pieces_on sep s
    else match pieces_on sep s with
         | w :: ws => String c w :: ws
         | [] => [String c EmptyString]
         end.
Proof.
  unfold pieces_on. cbn [split_on]. destruct (split_on sep s) as [w ws].
  now destruct (Ascii.eqb c sep).
Qed.

Lemma pieces_on_nonempty sep s : exists w ws, pieces_on sep s = w :: ws.
Proof. unfold pieces_on. destruct (split_on sep s). eauto. Qed.

(** Splitting a text joined by the separator splits both sides. *)
Lemma pieces_on_app sep a b :
  pieces_on sep (a ++ String sep b) = (pieces_on sep a ++ pieces_on sep b)%list.
Proof.
  induction a as [|c a IH].
  - cbn [append]. rewrite pieces_on_cons, Ascii.eqb_refl. reflexivity.
  - cbn [append]. rewrite !pieces_on_cons, IH.
    destruct (Ascii.eqb c sep); [reflexivity|].
    destruct (pieces_on_nonempty sep a) as (w & ws & ->). reflexivity.
Qed.

Lemma pieces_on_whole sep s :
  has_char sep s = false -> pieces_on sep s = [s].
Proof.
  unfold has_char. induction s as [|c s IH]; [reflexivity|].
  cbn [list_ascii_of_string existsb]. intros H.
  apply orb_false_iff in H as [H1 H2]. rewrite pieces_on_cons.
  rewrite Ascii.eqb_sym, H1. now rewrite (IH H2).
Qed.

Lemma tokens_pieces s : tokens s = pieces_on " "%char s.
Proof. unfold tokens, pieces_on. now rewrite split_space_on. Qed.

Lemma first_token_tokens s : first_token s = hd EmptyString (tokens s).
Proof. unfold first_token, tokens. now destruct (split_space s). Qed.

Lemma last_token_tokens s : last_token s = last (tokens s) EmptyString.
Proof.
  unfold last_token, tokens. destruct (split_space s) as [w ws].
  now rewrite last_cons.
Qed.

(** X1 (middle names): the two names sent to the registry are the first
    and the last piece of the display name. Whatever stands between a
    given name and a family name without spaces is dropped, and the
    search runs exactly as for the two names alone. *)
Theorem middle_names_ignored {U : unicode} net given middle family institution w :
  has_space given = false ->
  has_space family = false ->
  first_token (given ++ " " ++ middle ++ " " ++ family) = given
  /\ last_token (given ++ " " ++ middle ++ " " ++ family) = family
  /\ search_orcid_individual net
       (JStr (given ++ " " ++ middle ++ " " ++ family)) institution w
     = search_orcid_individual net (JStr (given ++ " " ++ family)) institution w.
Proof.
  intros Hg Hf.
  assert (T3 : tokens (given ++ " " ++ middle ++ " " ++ family)
               = (given :: tokens middle ++ [family])%list).
  { rewrite !tokens_pieces. cbn [append].
    rewrite pieces_on_app, pieces_on_app.
    now rewrite (pieces_on_whole _ _ Hg), (pieces_on_whole _ _ Hf). }
  assert (T2 : tokens (given ++ " " ++ family) = [given; family]).
  { rewrite !tokens_pieces. cbn [append]. rewrite pieces_on_app.
    now rewrite (pieces_on_whole _ _ Hg), (pieces_on_whole _ _ Hf). }
  assert (F3 : first_token (given ++ " " ++ middle ++ " " ++ family) = given)
    by (now rewrite first_token_tokens, T3).
  assert (L3 : last_token (given ++ " " ++ middle ++ " " ++ family) = family).
  { rewrite last_token_tokens, T3, last_cons. apply last_last. }
  split; [exact F3|]. split; [exact L3|].
  unfold search_orcid_individual, lift, split_name.
  unfold bind at 1. symmetry. unfold bind at 1. symmetry.
  cbn [fst snd]. rewrite F3, L3.
  rewrite first_token_tokens, last_token_tokens, T2. reflexivity.
Qed.

(** X2 (one-word name): for a display name without a space, the given
    name and the family name of the query are both the whole name. *)
Theorem single_word_name name :
  has_space name = false ->
  first_token name = name /\ last_token name = name.
Proof.
  intros H. rewrite first_token_tokens, last_token_tokens, tokens_pieces.
  now rewrite (pieces_on_whole _ _ H).
Qed.

(** *** getTargetRepositoryDetails *)

(** X3: a repository path without a slash has no owner: the function
    raises [IndexError] and sends no request. *)
Theorem path_without_owner net repositoryPath w :
  has_char "/"%char repositoryPath = false ->
  getTargetRepositoryDetails net repositoryPath w = (Raise IndexError, w).
Proof.
  intros H. unfold getTargetRepositoryDetails. mrun.
  now rewrite (pieces_on_whole _ _ H).
Qed.

Lemma rev_pieces_two prefix owner name :
  has_char "/"%char owner = false ->
  has_char "/"%char name = false ->
  rev (pieces_on "/"%char (prefix ++ "/" ++ owner ++ "/" ++ name))
  = name :: owner :: rev (pieces_on "/"%char prefix).
Proof.
  intros Ho Hn. cbn [append]. rewrite pieces_on_app, pieces_on_app.
  rewrite (pieces_on_whole _ _ Ho), (pieces_on_whole _ _ Hn).
  now rewrite !rev_app_distr.
Qed.

(** X4: for a path that ends in [owner/name] (a bare [owner/name] or a
    URL of the repository), the one request goes to the repository of
    that owner and name, and the decoded body is returned whatever the
    status of the answer. *)
Theorem details_of_owner_and_name net owner name w :
  has_char "/"%char owner = false ->
  has_char "/"%char name = false ->
  getTargetRepositoryDetails net (owner ++ "/" ++ name) w
  = json_of (net (List.length (requests w)) (repository_url owner name))
      (sent (repository_url owner name) w)
  /\ forall prefix,
      getTargetRepositoryDetails net (prefix ++ "/" ++ owner ++ "/" ++ name) w
      = json_of (net (List.length (requests w)) (repository_url owner name))
          (sent (repository_url owner name) w).
Proof.
  intros Ho Hn. split.
  - unfold getTargetRepositoryDetails, last_piece, second_last_piece. mrun.
    cbn [append]. rewrite pieces_on_app.
    rewrite (pieces_on_whole _ _ Ho), (pieces_on_whole _ _ Hn). reflexivity.
  - intros prefix.
    unfold getTargetRepositoryDetails, last_piece, second_last_piece. mrun.
    rewrite (rev_pieces_two prefix owner name Ho Hn). reflexivity.
Qed.

(** X5: a path with a slash at its end names the repository by the
    empty string and takes the piece before the slash for the owner. *)
Theorem trailing_slash_shifts net prefix name w :
  has_char "/"%char name = false ->
  getTargetRepositoryDetails net (prefix ++ "/" ++ name ++ "/") w
  = json_of (net (List.length (requests w)) (repository_url name ""))
      (sent (repository_url name "") w).
Proof.
  intros Hn.
  unfold getTargetRepositoryDetails, last_piece, second_last_piece. mrun.
  change (prefix ++ "/" ++ name ++ "/") with (prefix ++ "/" ++ name ++ "/" ++ "").
  rewrite (rev_pieces_two prefix name "" Hn eq_refl). reflexivity.
Qed.

(* ================================================================== *)
(** ** What the scan finds *)

(** X6: the scan of a text comes back empty exactly when the text has
    no identifier link standing between word boundaries, whatever the
    Unicode tables say of the characters beyond ASCII. *)
Theorem findall_empty_iff {U : unicode} text :
  findall text = [] <->
  ~ exists pre m post, occurs_at (chars text) pre m post /\ delimited pre post.
Proof. exact (findall_empty_spec text). Qed.

Section Links.
Context {U : unicode}.
Variable net : nat -> string -> response.

Lemma orcid_matches_links data :
  exists l, orcid_matches data = JList (map JStr l) /\ Forall is_pid_string l.
Proof.
  exists (findall (str data)). split; [reflexivity|].
  unfold findall. apply Forall_map.
  eapply Forall_impl; [|apply scan_all_links].
  intros m Hm. exists m. now split.
Qed.

Lemma social_scan_links username w v w' :
  search_social_accounts net username w = (Ok v, w') ->
  v = JNull \/
  exists l, v = JList (map JStr l) /\ Forall is_pid_string l.
Proof.
  unfold search_social_accounts. mrun.
  destruct (ok _); [|intros [= <- _]; auto].
  unfold json_of, ret, raise. destruct (body _) as [data|]; [|discriminate].
  destruct (truthy (orcid_matches data)); intros [= <- _]; auto.
  right. apply orcid_matches_links.
Qed.

(** X7: whatever the platform answers and whatever the Unicode tables
    are, a list returned by the scan of the profile and of the social
    accounts holds only strings of the shape of an identifier link
    (scheme, host, four groups of four characters, digits in the sense
    of [\d] but the last, one of [0-9X]). *)
Theorem scanned_links_well_formed username w v w' :
  search_github_user_for_orcid net username w = (Ok v, w') ->
  v = JNull \/
  exists l, v = JList (map JStr l) /\ Forall is_pid_string l.
Proof.
  unfold search_github_user_for_orcid. mrun.
  destruct (ok _); [|apply social_scan_links].
  unfold json_of, ret, raise. destruct (body _) as [data|]; [|discriminate].
  destruct (truthy (orcid_matches data)); [|apply social_scan_links].
  intros [= <- _]. right. apply orcid_matches_links.
Qed.

Lemma social_scan_footprint username w :
  let w' := snd (search_social_accounts net username w) in
  requests w' = social_accounts_url username :: requests w /\
  stdout w' = stdout w /\ sleeps w' = sleeps w.
Proof.
  unfold search_social_accounts. mrun.
  destruct (ok _); [|repeat split].
  unfold json_of, ret, raise. destruct (body _) as [data|]; [|repeat split].
  destruct (truthy (orcid_matches data)); repeat split.
Qed.

(** X8: the scan sends one or two requests, to the profile and then to
    the social accounts of the user, and nothing else: it never queries
    the registry, prints or pauses. *)
Theorem scan_footprint username w :
  let w' := snd (search_github_user_for_orcid net username w) in
  (requests w' = user_url username :: requests w
   \/ requests w' = social_accounts_url username :: user_url username :: requests w)
  /\ is_registry_url (user_url username) = false
  /\ is_registry_url (social_accounts_url username) = false
  /\ stdout w' = stdout w /\ sleeps w' = sleeps w.
Proof.
  assert (S : forall w0,
             let w' := snd (search_social_accounts net username
                              (sent (user_url username) w0)) in
             requests w' = social_accounts_url username :: user_url username
                           :: requests w0
             /\ stdout w' = stdout w0 /\ sleeps w' = sleeps w0).
  { intros w0. exact (social_scan_footprint username (sent (user_url username) w0)). }
  unfold search_github_user_for_orcid. mrun.
  destruct (ok _).
  - unfold json_of, ret, raise. destruct (body _) as [data|]; [|repeat split; auto].
    destruct (truthy (orcid_matches data)); [repeat split; auto|].
    destruct (S w) as (R & O & Z). repeat split; auto.
  - destruct (S w) as (R & O & Z). repeat split; auto.
Qed.

(** X9: when the user exists, the profile answers 200 without a
    delimited identifier link and the social accounts answer 200 with
    one, the resolution returns the leftmost such link of the social
    accounts after three requests, none of them to the registry. *)
Theorem social_link_returned username w profile_data social_data :
  status_code (net (List.length (requests w)) (user_url username)) = 200 ->
  net (S (List.length (requests w))) (user_url username)
  = {| status_code := 200; body := Some profile_data |} ->
  ~ (exists pre m post,
        occurs_at (chars (str profile_data)) pre m post /\ delimited pre post) ->
  net (S (S (List.length (requests w)))) (social_accounts_url username)
  = {| status_code := 200; body := Some social_data |} ->
  (exists pre m post,
      occurs_at (chars (str social_data)) pre m post /\ delimited pre post) ->
  exists m,
    first_pid (str social_data) m /\
    search_github_user_for_orcid_robust net username w
    = (Ok (JStr m),
       sent (social_accounts_url username)
         (sent (user_url username) (sent (user_url username) w))).
Proof.
  intros H1 H2 N H3 Hocc.
  destruct (findall_first _ Hocc) as (m & ms & F & First).
  apply findall_empty_spec in N.
  exists m. split; [assumption|].
  unfold search_github_user_for_orcid_robust, search_github_user_for_orcid,
    search_social_accounts. mrun.
  unfold ok. rewrite H1. cbn [Z.eqb Pos.eqb negb List.length requests sent].
  rewrite H2. unfold json_of, ret.
  cbn [status_code body Z.eqb Pos.eqb negb].
  unfold orcid_matches at 1. rewrite N. cbn [map truthy List.length requests sent].
  rewrite H3. cbn [status_code body Z.eqb Pos.eqb negb].
  unfold orcid_matches. rewrite F. cbn [map truthy index0 fst snd]. reflexivity.
Qed.

End Links.

(* ================================================================== *)
(** ** Errors of the resolution *)

Section Errors.
Context {U : unicode}.
Variable net : nat -> string -> response.

Lemma split_name_not_string name :
  (forall s, name <> JStr s) -> split_name name = Raise AttributeError.
Proof. intros H. destruct name; try reflexivity. now destruct (H s). Qed.

(** X10: for an existing user with no identifier on the platform whose
    profile has no display name (the field is null, absent, or anything
    but a string), the resolution raises [AttributeError] right after
    the third fetch of the profile, before any request to the
    registry. *)
Theorem no_display_name_raises username w w2 user_data name institution :
  status_code (net (List.length (requests w)) (user_url username)) = 200 ->
  search_github_user_for_orcid net username (sent (user_url username) w)
  = (Ok JNull, w2) ->
  net (List.length (requests w2)) (user_url username)
  = {| status_code := 200; body := Some user_data |} ->
  get user_data "name" = Ok name ->
  get user_data "company" = Ok institution ->
  (forall s, name <> JStr s) ->
  search_github_user_for_orcid_robust net username w
  = (Raise AttributeError, sent (user_url username) w2).
Proof.
  intros H1 H2 H3 Hn Hc Hs.
  assert (G : get_name_and_institution_from_github_api net username w2
              = (Ok (Some (name, institution)), sent (user_url username) w2)).
  { unfold get_name_and_institution_from_github_api. mrun. rewrite H3.
    unfold ok, json_of, ret. cbn [status_code body Z.eqb Pos.eqb].
    now rewrite Hn, Hc. }
  rewrite (robust_reaches_registry net _ _ _ _ _ _ H1 H2 G).
  unfold search_orcid_individual. mrun.
  now rewrite (split_name_not_string _ Hs).
Qed.

(** X11: for an existing user with no identifier on the platform whose
    profile no longer answers 200 when it is fetched for the name, the
    resolution raises [TypeError]. *)
Theorem vanished_profile_raises username w w2 :
  status_code (net (List.length (requests w)) (user_url username)) = 200 ->
  search_github_user_for_orcid net username (sent (user_url username) w)
  = (Ok JNull, w2) ->
  status_code (net (List.length (requests w2)) (user_url username)) <> 200 ->
  search_github_user_for_orcid_robust net username w
  = (Raise TypeError, sent (user_url username) w2).
Proof.
  intros H1 H2 H3. unfold search_github_user_for_orcid_robust.
  unfold bind at 1, http_get at 1. unfold ok. rewrite H1.
  cbn [Z.eqb Pos.eqb negb]. rewrite (bind_ok _ _ _ _ _ H2).
  unfold get_name_and_institution_from_github_api. mrun. unfold ok.
  apply Z.eqb_neq in H3. now rewrite H3.
Qed.

(** X12: when the search with the organization counts one record and
    lists none, the search raises [IndexError]. *)
Theorem single_count_empty_page_raises name institution w search_results :
  net (List.length (requests w))
      (exact_search_url (first_token name) (last_token name) institution)
  = {| status_code := 200; body := Some search_results |} ->
  get search_results "num-found" = Ok (JNum 1) ->
  get search_results "result" = Ok (JList []) ->
  search_orcid_individual net (JStr name) institution w
  = (Raise IndexError,
     sent (exact_search_url (first_token name) (last_token name) institution) w).
Proof.
  intros H N R. unfold search_orcid_individual. mrun.
  cbn [split_name fst snd]. rewrite H. unfold ok, json_of, ret.
  cbn [status_code body Z.eqb Pos.eqb]. rewrite N. cbn [eq Z.eqb Pos.eqb].
  now rewrite R.
Qed.

(** X13: when the search with the organization singles out no record
    and the search on the names answers 200 with a null result (no
    list), the search raises [TypeError]: the count is not looked at
    before the results are iterated. *)
Theorem null_result_raises name institution w search_results :
  no_exact_match
    (net (List.length (requests w))
         (exact_search_url (first_token name) (last_token name) institution))
  = true ->
  net (S (List.length (requests w)))
      (broad_search_url (first_token name) (last_token name))
  = {| status_code := 200; body := Some search_results |} ->
  get search_results "result" = Ok JNull ->
  search_orcid_individual net (JStr name) institution w
  = (Raise TypeError,
     sent (broad_search_url (first_token name) (last_token name))
       (sent (exact_search_url (first_token name) (last_token name) institution) w)).
Proof.
  intros H1 H2 R. rewrite (exact_search_miss net _ _ _ H1).
  unfold search_without_affiliation. mrun. rewrite H2.
  unfold ok, json_of, ret. cbn [status_code body Z.eqb Pos.eqb].
  now rewrite R.
Qed.

(** X14: when neither search of the registry answers 200, the search
    returns [None] after these two requests, without raising. *)
Theorem registry_unavailable name institution w :
  status_code
    (net (List.length (requests w))
         (exact_search_url (first_token name) (last_token name) institution))
  <> 200 ->
  status_code
    (net (S (List.length (requests w)))
         (broad_search_url (first_token name) (last_token name)))
  <> 200 ->
  search_orcid_individual net (JStr name) institution w
  = (Ok JNull,
     sent (broad_search_url (first_token name) (last_token name))
       (sent (exact_search_url (first_token name) (last_token name) institution) w)).
Proof.
  intros H1 H2. apply Z.eqb_neq in H1, H2.
  rewrite (exact_search_miss net).
  - unfold search_without_affiliation. mrun. unfold ok. now rewrite H2.
  - unfold no_exact_match, ok. now rewrite H1.
Qed.

End Errors.

(* ================================================================== *)
(** ** The acronym and the candidates *)

(** *** The characters of a string *)

Lemma take_continuations_spec k : forall l t r,
  take_continuations k l = (t, r) ->
  l = (map single (list_ascii_of_string t) ++ r)%list /\
  (String.length t <= k)%nat /\
  forallb is_continuation (list_ascii_of_string t) = true.
Proof.
  induction k as [|k IH]; intros l t r; cbn [take_continuations].
  - destruct l; intros [= <- <-]; cbn; repeat split; lia.
  - destruct l as [|x l]; [intros [= <- <-]; cbn; repeat split; lia|].
    destruct x as [|b [|]]; try (intros [= <- <-]; cbn; repeat split; lia).
    destruct (is_continuation b) eqn:C;
      [|intros [= <- <-]; cbn; repeat split; lia].
    destruct (take_continuations k l) as [t' r'] eqn:E.
    intros [= <- <-]. destruct (IH _ _ _ E) as (-> & L & F).
    cbn [list_ascii_of_string map app String.length forallb].
    rewrite C, F. repeat split. lia.
Qed.


Lemma chars_well_formed s : Forall (fun ch => well_formed_char ch = true) (chars s).
Proof.
  induction s as [|b s IH]; [constructor|]. cbn [chars].
  destruct (take_continuations (lead_extra b) (chars s)) as [t r] eqn:E.
  destruct (take_continuations_spec _ _ _ _ E) as (Eq & L & F).
  rewrite Eq in IH. apply Forall_app in IH as [_ IH].
  constructor; [|exact IH].
  cbn [well_formed_char]. rewrite F, andb_true_r. now apply Nat.leb_le.
Qed.

Lemma continuation_no_lead b : is_continuation b = true -> lead_extra b = O.
Proof.
  unfold is_continuation, char_between, lead_extra. intros H.
  apply andb_true_iff in H as [_ H]. apply Nat.leb_le in H.
  destruct (Nat.ltb_spec (nat_of_ascii b) 192); [reflexivity|lia].
Qed.

Lemma chars_continuations t :
  forallb is_continuation (list_ascii_of_string t) = true ->
  chars t = map single (list_ascii_of_string t).
Proof.
  induction t as [|b t IH]; [reflexivity|].
  cbn [list_ascii_of_string forallb map chars]. intros H.
  apply andb_true_iff in H as [Hb Ht]. rewrite (continuation_no_lead _ Hb).
  cbn [take_continuations]. rewrite (IH Ht).
  now destruct (map single (list_ascii_of_string t)).
Qed.

Lemma take_all_continuations t : forall k,
  (String.length t <= k)%nat ->
  forallb is_continuation (list_ascii_of_string t) = true ->
  take_continuations k (map single (list_ascii_of_string t)) = (t, []).
Proof.
  induction t as [|b t IH]; intros k L F.
  - now destruct k.
  - cbn [String.length] in L. destruct k as [|k]; [lia|].
    cbn [list_ascii_of_string forallb map take_continuations single] in *.
    apply andb_true_iff in F as [Hb Ht]. rewrite Hb.
    rewrite (IH k); [reflexivity|lia|exact Ht].
Qed.

(** A character is the one character of itself. *)
Lemma chars_of_char ch : well_formed_char ch = true -> chars ch = [ch].
Proof.
  destruct ch as [|b t]; [discriminate|]. cbn [well_formed_char chars].
  intros H. apply andb_true_iff in H as [L F]. apply Nat.leb_le in L.
  rewrite (chars_continuations _ F), (take_all_continuations _ _ L F).
  reflexivity.
Qed.




Lemma concat_cons x l :
  String.concat EmptyString (x :: l) = (x ++ String.concat EmptyString l)%string.
Proof.
  destruct l; cbn [String.concat]; [|reflexivity].
  induction x as [|c x IH]; [reflexivity|]. cbn [append]. now f_equal.
Qed.


Section Capitals.

Context {U : unicode}.

Lemma isupper_of_char ch : well_formed_char ch = true -> isupper ch = capital ch.
Proof.
  intros H. unfold isupper, capital. rewrite (chars_of_char _ H).
  cbn [existsb]. now rewrite !orb_false_r.
Qed.

Lemma upper_chars_filter l :
  Forall (fun ch => well_formed_char ch = true) l ->
  upper_chars (map JStr l) = Ok (String.concat EmptyString (filter capital l)).
Proof.
  induction l as [|ch l IH]; [reflexivity|]. intros H.
  apply Forall_cons_iff in H as [Hc Hl].
  cbn [map upper_chars filter]. rewrite (IH Hl). cbn [rbind].
  rewrite (isupper_of_char _ Hc). destruct (capital ch); [|reflexivity].
  now rewrite concat_cons.
Qed.

Lemma capitalized_acronym iAffiliation organization name :
  get iAffiliation "organization" = Ok organization ->
  get organization "name" = Ok (JStr name) ->
  capitalized_affiliation iAffiliation = Ok (acronym name).
Proof.
  intros H1 H2. unfold capitalized_affiliation. rewrite H1. cbn [rbind].
  rewrite H2. cbn [rbind iter]. unfold chars_of, acronym.
  apply upper_chars_filter, chars_well_formed.
Qed.

(** X15 (acronym derivation): for an affiliation whose organization name
    is a string, the text compared with the declared organization is
    made of the characters of the name for which [isupper()] holds
    (uppercase and neither lowercase nor titlecase, accented capitals
    included when the tables say so), in order, and of nothing else. *)
Theorem acronym_of_affiliation iAffiliation organization name :
  get iAffiliation "organization" = Ok organization ->
  get organization "name" = Ok (JStr name) ->
  capitalized_affiliation iAffiliation = Ok (acronym name).
Proof. exact (capitalized_acronym iAffiliation organization name). Qed.






End Capitals.

Section Candidates.
Context {U : unicode}.
Variable net : nat -> string -> response.



(** X17 (acronym fallback): when the search on the two names counts at
    most ten records and the record of the first listed candidate has
    an employment whose organization name has for capitals (its
    characters for which [isupper()] holds, accented ones included) the
    declared organization, no earlier employment of the record matching,
    the search returns [https://orcid.org/] followed by the path of the
    candidate, after one pause and the fetch of that one record. *)
Theorem acronym_candidate_accepted first_name last_name institution w
        search_results candidate rest orcid record before iAffiliation after
        organization name :
  net (List.length (requests w)) (broad_search_url first_name last_name)
  = {| status_code := 200; body := Some search_results |} ->
  few_found search_results = true ->
  get search_results "result" = Ok (JList (candidate :: rest)) ->
  candidate_path candidate = Ok orcid ->
  net (S (List.length (requests w))) (record_url orcid)
  = {| status_code := 200; body := Some record |} ->
  employment_summaries record = Ok (JList (before ++ iAffiliation :: after)) ->
  affiliation_matches before (JStr institution) = Ok false ->
  get iAffiliation "organization" = Ok organization ->
  get organization "name" = Ok (JStr name) ->
  acronym name = institution ->
  search_without_affiliation net first_name last_name (JStr institution) w
  = (Ok (JStr (orcid_uri orcid)),
     sent (record_url orcid) (slept (sent (broad_search_url first_name last_name) w))).
Proof.
  intros H1 F R P H2 E B O N A.
  unfold search_without_affiliation. mrun. rewrite H1.
  unfold ok, json_of, ret. cbn [status_code body Z.eqb Pos.eqb].
  rewrite R. cbn [iter candidates_loop]. mrun.
  unfold few_found in F.
  destruct (get search_results "num-found") as [[| |n| | |]|]; try discriminate.
  cbn [gt]. apply Z.leb_le in F.
  assert (L : (10 <? n)%Z = false) by (apply Z.ltb_ge; lia). rewrite L.
  unfold candidate_path, rbind in P.
  destruct (get candidate "orcid-identifier") as [identifier|]; [|discriminate].
  rewrite P. cbn [requests sent slept List.length].
  rewrite H2. unfold ok, json_of, ret. cbn [status_code body Z.eqb Pos.eqb].
  unfold employment_summaries, rbind in E.
  destruct (get record "activities-summary") as [a|]; [|discriminate].
  destruct (get a "employments") as [e|]; [|discriminate].
  rewrite E. cbn [iter].
  rewrite (acronym_accepted before iAffiliation after institution B).
  - reflexivity.
  - rewrite <- A. exact (capitalized_acronym _ _ _ O N).
Qed.

Lemma candidates_loop_paced results search_results first_name last_name
      institution :
  forall w,
    let run :=
      candidates_loop net results search_results first_name last_name institution w in
    exists fetched final,
      snd run = (final ++ paced_fetches fetched ++ w)%list /\
      Forall (fun url => is_registry_url url = true) fetched /\
      (List.length fetched <= List.length results)%nat /\
      (final = [] \/ final = [Paused] \/ exists line, final = [Printed line]) /\
      (forall v, fst run = Ok v -> final <> [Paused]).
Proof.
  induction results as [|candidate rest IH]; intros w; cbn [candidates_loop].
  - exists [], []. cbn. repeat split; auto; try constructor; discriminate.
  - assert (Idle : forall r : Py.result json,
               exists fetched final,
                 w = (final ++ paced_fetches fetched ++ w)%list /\
                 Forall (fun url => is_registry_url url = true) fetched /\
                 (List.length fetched <= S (List.length rest))%nat /\
                 (final = [] \/ final = [Paused] \/ exists line, final = [Printed line]) /\
                 (forall v : json, r = Ok v -> final <> [Paused])).
    { intros r. exists [], []. cbn. repeat split; auto; try constructor; try lia.
      discriminate. }
    mrun.
    destruct (get search_results "num-found") as [nf|]; [|apply Idle].
    destruct (gt nf 10) as [[|]|]; [| |apply Idle].
    { exists [], [Printed (too_many_warning nf first_name last_name)].
      cbn. repeat split; eauto; try constructor; try lia. discriminate. }
    destruct (get candidate "orcid-identifier") as [identifier|];
      [|exists [], [Paused]; cbn; repeat split; auto; try constructor; try lia;
        discriminate].
    destruct (get identifier "path") as [orcid|];
      [|exists [], [Paused]; cbn; repeat split; auto; try constructor; try lia;
        discriminate].
    assert (Next :
              let run :=
                candidates_loop net rest search_results first_name last_name
                  institution (sent (record_url orcid) (slept w)) in
              exists fetched final,
                snd run = (final ++ paced_fetches fetched ++ w)%list /\
                Forall (fun url => is_registry_url url = true) fetched /\
                (List.length fetched <= S (List.length rest))%nat /\
                (final = [] \/ final = [Paused] \/ exists line, final = [Printed line]) /\
                (forall v, fst run = Ok v -> final <> [Paused])).
    { destruct (IH (sent (record_url orcid) (slept w)))
        as (fetched & final & R & F & Ln & Fin & Sok).
      exists (fetched ++ [record_url orcid])%list, final.
      split.
      { rewrite R. unfold paced_fetches. rewrite flat_map_app.
        cbn [flat_map app sent slept]. now rewrite <- !app_assoc. }
      split; [apply Forall_app; split; [exact F|constructor; [reflexivity|constructor]]|].
      rewrite length_app. cbn [List.length].
      split; [lia|]. split; assumption. }
    assert (Stop : forall r : Py.result json,
               exists fetched final,
                 sent (record_url orcid) (slept w)
                 = (final ++ paced_fetches fetched ++ w)%list /\
                 Forall (fun url => is_registry_url url = true) fetched /\
                 (List.length fetched <= S (List.length rest))%nat /\
                 (final = [] \/ final = [Paused] \/ exists line, final = [Printed line]) /\
                 (forall v : json, r = Ok v -> final <> [Paused])).
    { intros r. exists [record_url orcid], []. cbn [List.length app].
      split; [reflexivity|].
      split; [constructor; [reflexivity|constructor]|].
      split; [lia|]. split; [now left|discriminate]. }
    destruct (ok _); [|exact Next].
    unfold json_of, ret, raise.
    destruct (body _) as [record|]; [|apply Stop].
    destruct (get record "activities-summary") as [a|]; [|apply Stop].
    destruct (get a "employments") as [e|]; [|apply Stop].
    destruct (get e "employment-summary") as [summary|]; [|apply Stop].
    destruct (iter summary) as [affiliations|]; [|apply Stop].
    destruct (affiliation_matches affiliations institution) as [[|]|];
      [apply Stop|exact Next|apply Stop].
Qed.

(** X18 (pacing): in the search on the two names alone, what the run
    does after the search request is a sequence of fetches of registry
    records, each coming right after a pause of its own; at its end
    there may be one more pause (when the search raises before the
    fetch) or the one line printed, and nothing else. *)
Theorem broad_search_paced first_name last_name institution w :
  let run := search_without_affiliation net first_name last_name institution w in
  exists fetched final,
    snd run
    = (final ++ paced_fetches fetched
       ++ Requested (broad_search_url first_name last_name) :: w)%list /\
    Forall (fun url => is_registry_url url = true) fetched /\
    (final = [] \/ final = [Paused] \/ exists line, final = [Printed line]) /\
    (forall v, fst run = Ok v -> final <> [Paused]).
Proof.
  unfold search_without_affiliation. mrun.
  assert (Idle : forall r : Py.result json,
             exists fetched final,
               sent (broad_search_url first_name last_name) w
               = (final ++ paced_fetches fetched
                  ++ Requested (broad_search_url first_name last_name) :: w)%list /\
               Forall (fun url => is_registry_url url = true) fetched /\
               (final = [] \/ final = [Paused] \/ exists line, final = [Printed line]) /\
               (forall v : json, r = Ok v -> final <> [Paused])).
  { intros r. exists [], []. cbn. repeat split; auto; try constructor. discriminate. }
  destruct (ok _); [|apply Idle].
  unfold json_of, ret, raise.
  destruct (body _) as [sr|]; [|apply Idle].
  destruct (get sr "result") as [results|]; [|apply Idle].
  destruct (iter results) as [items|]; [|apply Idle].
  destruct (candidates_loop_paced items sr first_name last_name institution
              (sent (broad_search_url first_name last_name) w))
    as (fetched & final & R & F & _ & Fin & Sok).
  exists fetched, final. repeat split; assumption.
Qed.

Lemma candidates_loop_result results search_results first_name last_name institution :
  forall w v w',
    candidates_loop net results search_results first_name last_name institution w
    = (Ok v, w') ->
    v = JNull \/
    exists candidate orcid,
      In candidate results /\ candidate_path candidate = Ok orcid /\
      v = JStr (orcid_uri orcid).
Proof.
  induction results as [|candidate rest IH]; intros w v w'; cbn [candidates_loop].
  - intros [= <- _]. now left.
  - assert (Later : forall w0,
               candidates_loop net rest search_results first_name last_name
                 institution w0 = (Ok v, w') ->
               v = JNull \/
               exists c orcid,
                 In c (candidate :: rest) /\ candidate_path c = Ok orcid /\
                 v = JStr (orcid_uri orcid)).
    { intros w0 H. destruct (IH _ _ _ H) as [->|(c & o & Hin & P & ->)];
        [now left|]. right. exists c, o. repeat split; [now right|exact P]. }
    mrun.
    destruct (get search_results "num-found") as [nf|]; [|discriminate].
    destruct (gt nf 10) as [[|]|]; [intros [= <- _]; now left| |discriminate].
    destruct (get candidate "orcid-identifier") as [identifier|] eqn:I;
      [|discriminate].
    destruct (get identifier "path") as [orcid|] eqn:P; [|discriminate].
    destruct (ok _); [|apply Later].
    unfold json_of, ret, raise. destruct (body _) as [record|]; [|discriminate].
    destruct (get record "activities-summary") as [a|]; [|discriminate].
    destruct (get a "employments") as [e|]; [|discriminate].
    destruct (get e "employment-summary") as [summary|]; [|discriminate].
    destruct (iter summary) as [affiliations|]; [|discriminate].
    destruct (affiliation_matches affiliations institution) as [[|]|];
      [|apply Later|discriminate].
    intros [= <- _]. right. exists candidate, orcid.
    split; [now left|]. split; [|reflexivity].
    unfold candidate_path. rewrite I. exact P.
Qed.

(** X19: an identifier returned by the search on the two names alone is
    [https://orcid.org/] followed by the path of one of the candidates
    listed in the answer to that search; the search returns nothing
    else but [None]. *)
Theorem broad_search_result_from_listing first_name last_name institution w v w' :
  search_without_affiliation net first_name last_name institution w = (Ok v, w') ->
  v = JNull \/
  exists search_results results items candidate orcid,
    body (net (List.length (requests w)) (broad_search_url first_name last_name))
    = Some search_results /\
    get search_results "result" = Ok results /\
    iter results = Ok items /\
    In candidate items /\
    candidate_path candidate = Ok orcid /\
    v = JStr (orcid_uri orcid).
Proof.
  unfold search_without_affiliation. mrun.
  destruct (ok _); [|intros [= <- _]; now left].
  unfold json_of, ret, raise. destruct (body _) as [sr|]; [|discriminate].
  destruct (get sr "result") as [results|] eqn:R; [|discriminate].
  destruct (iter results) as [items|] eqn:It; [|discriminate].
  intros H. apply candidates_loop_result in H as [->|(c & o & Hin & P & ->)];
    [now left|].
  right. exists sr, results, items, c, o. repeat split; assumption.
Qed.

End Candidates.

(* ================================================================== *)
(** ** More on the aggregation *)

Lemma match_stats_shape stats_data : forall contributor contributor',
  match_stats stats_data contributor = Ok contributor' ->
  contributor' = contributor \/
  exists volume dates,
    contributor'
    = dict_set "contributed_dates" (JList dates)
        (dict_set "volume" (JNum volume) contributor).
Proof.
  induction stats_data as [|stats rest IH]; intros c c'; cbn [match_stats].
  - intros [= <-]. now left.
  - unfold rbind.
    destruct (get stats "author") as [author|]; [|discriminate].
    destruct (get author "login") as [l|]; [|discriminate].
    destruct (getitem c "login") as [mine|]; [|discriminate].
    destruct (eq l mine); [|apply IH].
    destruct (get stats "weeks") as [weeks|]; [|discriminate].
    destruct (iter weeks) as [ws|]; [|discriminate].
    destruct (sum_field "a" ws 0) as [ta|]; [|discriminate].
    destruct (sum_field "d" ws 0) as [td|]; [|discriminate].
    destruct (active_dates ws) as [dates|]; [|discriminate].
    intros [= <-]. right. eauto.
Qed.

Lemma repeat_shift {A} (x : A) n l : (repeat x n ++ x :: l = x :: repeat x n ++ l)%list.
Proof. induction n as [|n IH]; [reflexivity|]. cbn. now rewrite IH. Qed.

Section Records.
Variable net : nat -> string -> response.

Lemma contributor_of_shape owner repo contributor_data w c w' :
  contributor_of net owner repo contributor_data w = (Ok c, w') ->
  exists login contributions,
    get contributor_data "login" = Ok login /\
    get contributor_data "contributions" = Ok contributions /\
    w' = sent (contributor_stats_url owner repo) w /\
    (c = bare_record login contributions
     \/ exists dates volume, c = full_record login contributions dates volume).
Proof.
  unfold contributor_of. mrun.
  destruct (get contributor_data "login") as [login|]; [|discriminate].
  destruct (get contributor_data "contributions") as [contributions|];
    [|discriminate].
  destruct (ok _).
  - unfold json_of, ret, raise. destruct (body _) as [stats|]; [|discriminate].
    destruct (iter stats) as [entries|]; [|discriminate].
    destruct (match_stats entries _) as [c'|] eqn:E; [|discriminate].
    intros [= <- <-]. exists login, contributions. repeat split.
    apply match_stats_shape in E as [->|(volume & dates & ->)]; [now left|].
    right. exists dates, volume. reflexivity.
  - intros [= <- <-]. exists login, contributions. repeat split. now left.
Qed.

(** X20: a record produced for a listed contributor has one of two
    shapes: login, contributions and an empty list of dates; or these
    three with a list of dates, followed by an integer volume. The
    volume is never present without the dates having been set. *)
Theorem record_shape owner repo contributor_data w c w' :
  contributor_of net owner repo contributor_data w = (Ok c, w') ->
  exists login contributions,
    get contributor_data "login" = Ok login /\
    get contributor_data "contributions" = Ok contributions /\
    w' = sent (contributor_stats_url owner repo) w /\
    (c = bare_record login contributions
     \/ exists dates volume, c = full_record login contributions dates volume).
Proof. exact (contributor_of_shape owner repo contributor_data w c w'). Qed.

Lemma contributors_loop_requests owner repo contributors_data :
  forall contributors w cs w',
    contributors_loop net owner repo contributors_data contributors w = (Ok cs, w') ->
    List.length cs = (List.length contributors + List.length contributors_data)%nat /\
    requests w'
    = (repeat (contributor_stats_url owner repo) (List.length contributors_data)
       ++ requests w)%list /\
    stdout w' = stdout w /\ sleeps w' = sleeps w.
Proof.
  induction contributors_data as [|x rest IH]; intros acc w cs w';
    cbn [contributors_loop].
  - intros [= <- <-]. cbn. repeat split. lia.
  - unfold bind.
    destruct (contributor_of net owner repo x w) as [[c|e] w1] eqn:E;
      [|discriminate].
    apply contributor_of_shape in E as (_ & _ & _ & _ & -> & _).
    intros H. apply IH in H as (L & R & O & Z).
    rewrite length_app in L. cbn [List.length requests sent stdout sleeps] in *.
    repeat split; try assumption; [lia|].
    rewrite R. apply repeat_shift.
Qed.

(** X21: when the listing answers 200 with a list and the aggregation
    returns, it returns one record per listed contributor and has sent,
    after the listing request, one request for the statistics of the
    repository per listed contributor, and nothing else. *)
Theorem one_statistics_fetch_each owner repo w contributors_data contributors w' :
  net (List.length (requests w)) (contributors_url owner repo)
  = {| status_code := 200; body := Some (JList contributors_data) |} ->
  get_repository_contributors net owner repo w = (Ok contributors, w') ->
  List.length contributors = List.length contributors_data /\
  requests w'
  = (repeat (contributor_stats_url owner repo) (List.length contributors_data)
     ++ contributors_url owner repo :: requests w)%list.
Proof.
  intros H. unfold get_repository_contributors. mrun. rewrite H.
  unfold ok, json_of, ret. cbn [status_code body Z.eqb Pos.eqb iter].
  intros R. apply contributors_loop_requests in R as (L & R & _).
  split; [exact L|exact R].
Qed.

Lemma contributors_loop_bare owner repo contributors_data :
  (forall n, status_code (net n (contributor_stats_url owner repo)) <> 200) ->
  forallb is_dict contributors_data = true ->
  forall contributors w,
    fst (contributors_loop net owner repo contributors_data contributors w)
    = Ok (contributors ++ map bare_of contributors_data)%list.
Proof.
  intros Hs. induction contributors_data as [|x rest IH]; intros Hd acc w;
    cbn [contributors_loop].
  - unfold ret. cbn. now rewrite app_nil_r.
  - cbn [forallb] in Hd. apply andb_true_iff in Hd as [Hx Hrest].
    destruct x as [| | | | |d]; try discriminate.
    assert (E : contributor_of net owner repo (JDict d) w
                = (Ok (bare_of (JDict d)), sent (contributor_stats_url owner repo) w)).
    { unfold contributor_of. mrun. cbn [get get_default]. unfold ok.
      specialize (Hs (List.length (requests w))). apply Z.eqb_neq in Hs.
      now rewrite Hs. }
    rewrite (bind_ok _ _ _ _ _ E). rewrite (IH Hrest).
    cbn [map]. now rewrite <- app_assoc.
Qed.

(** X22: when the statistics never answer 200 (they are being computed,
    or the quota is spent), the aggregation still returns every listed
    contributor, in order, each with login, contributions and an empty
    list of dates, and none with a volume. *)
Theorem statistics_unavailable owner repo w contributors_data :
  net (List.length (requests w)) (contributors_url owner repo)
  = {| status_code := 200; body := Some (JList contributors_data) |} ->
  forallb is_dict contributors_data = true ->
  (forall n, status_code (net n (contributor_stats_url owner repo)) <> 200) ->
  fst (get_repository_contributors net owner repo w)
  = Ok (map bare_of contributors_data).
Proof.
  intros H Hd Hs. unfold get_repository_contributors. mrun. rewrite H.
  unfold ok, json_of, ret. cbn [status_code body Z.eqb Pos.eqb iter].
  now rewrite (contributors_loop_bare owner repo contributors_data Hs Hd).
Qed.

Lemma match_stats_orphan login before entry after contributor author :
  all_by_others login before = true ->
  dict_lookup "login" contributor = Some login ->
  get entry "author" = Ok author ->
  is_dict author = false ->
  match_stats (before ++ entry :: after) contributor = Raise AttributeError.
Proof.
  intros H L A D. induction before as [|stats rest IH].
  - cbn [app match_stats]. rewrite A. cbn [rbind].
    destruct author; try reflexivity. discriminate.
  - cbn [all_by_others forallb] in H. apply andb_true_iff in H as [H1 H2].
    cbn [app match_stats]. unfold other_author, author_login, rbind in H1.
    unfold rbind, getitem. rewrite L.
    destruct (get stats "author") as [a|]; [|discriminate].
    destruct (get a "login") as [l|]; [|discriminate].
    apply negb_true_iff in H1. rewrite H1. now apply IH.
Qed.

(** X23: an entry of the statistics whose author is not a record (a
    null author), met before an entry of the contributor being looked
    up, makes the whole aggregation raise [AttributeError]: no list of
    contributors is returned at all. *)
Theorem authorless_entry_aborts owner repo w contributor_data rest login before
        entry after author :
  net (List.length (requests w)) (contributors_url owner repo)
  = {| status_code := 200; body := Some (JList (contributor_data :: rest)) |} ->
  get contributor_data "login" = Ok login ->
  net (S (List.length (requests w))) (contributor_stats_url owner repo)
  = {| status_code := 200; body := Some (JList (before ++ entry :: after)) |} ->
  all_by_others login before = true ->
  get entry "author" = Ok author ->
  is_dict author = false ->
  get_repository_contributors net owner repo w
  = (Raise AttributeError,
     sent (contributor_stats_url owner repo) (sent (contributors_url owner repo) w)).
Proof.
  intros H L H2 N A D. destruct (get_login_dict _ _ L) as [d ->].
  cbn [get get_default] in L. injection L as L.
  unfold get_repository_contributors. mrun. rewrite H.
  unfold ok, json_of, ret. cbn [status_code body Z.eqb Pos.eqb iter].
  cbn [contributors_loop]. unfold contributor_of. mrun.
  cbn [get get_default]. rewrite L, H2.
  unfold ok, json_of, ret. cbn [status_code body Z.eqb Pos.eqb iter].
  rewrite (match_stats_orphan login before entry after _ author)
    by (assumption || reflexivity).
  reflexivity.
Qed.

End Records.

(* ================================================================== *)
(** ** Runs on the scenarios *)

Import Cases.

Section Runs.
Context {U : unicode}.

(** C1, where the code departs from the claim: the one registered Dan
    Bullock is employed at "Indiana University". Looked up with that
    very organization, he is not accepted and the search returns
    [None]; looked up with the capitals "IU", he is. *)
Theorem raw_name_not_accepted :
  fst (search_orcid_individual bullock_net (JStr "Dan Bullock")
         (JStr "Indiana University") start) = Ok JNull
  /\ fst (search_orcid_individual bullock_net (JStr "Dan Bullock") (JStr "IU") start)
     = Ok (JStr "https://orcid.org/0000-0002-4321-2180").
Proof. split; vm_compute; reflexivity. Qed.

(** C2, where the code departs from the claim: for an existing user
    without a display name the resolution raises [AttributeError], and
    when the profile is gone at the later fetch it raises [TypeError];
    in neither case does it return [None]. *)
Theorem nameless_profile_raises :
  fst (search_github_user_for_orcid_robust ghost_net "ghost" start)
  = Raise AttributeError
  /\ fst (search_github_user_for_orcid_robust vanishing_net "ghost" start)
     = Raise TypeError.
Proof. split; vm_compute; reflexivity. Qed.

(** C6, where the code departs from the claim: the search on the names
    alone, the sixth request of the resolution, reports eleven records
    and lists none of them; the resolution ends with that request and
    returns [None], and nothing at all is printed: no warning is
    emitted, the test of the count being inside the loop over the listed
    records. *)
Theorem empty_page_no_warning :
  let run := search_github_user_for_orcid_robust (carol_net []) "carol" start in
  carol_net [] 5%nat (broad_search_url "Carol" "Roe") = ok_json (search_page 11 [])
  /\ get (search_page 11 []) "num-found" = Ok (JNum 11)
  /\ hd_error (snd run) = Some (Requested (broad_search_url "Carol" "Roe"))
  /\ fst run = Ok JNull
  /\ stdout (snd run) = [].
Proof. vm_compute. repeat split. Qed.

(** C7, where the code departs from the claim: bob and ann are listed,
    the statistics hold an entry whose author is null and the entry of
    ann, so that no entry is one of bob. The aggregation raises
    [AttributeError] at the statistics of bob, the first contributor:
    no record is produced for him, ann is not processed and no list is
    returned. *)
Theorem unmatched_contributor_aborts :
  orphan_net 0%nat (contributors_url "o" "r") = ok_json (JList [bob; ann])
  /\ orphan_net 1%nat (contributor_stats_url "o" "r")
     = ok_json (JList [orphan_stats; ann_stats])
  /\ get bob "login" = Ok (JStr "bob")
  /\ existsb (names_author (JStr "bob")) [orphan_stats; ann_stats] = false
  /\ get_repository_contributors orphan_net "o" "r" start
     = (Raise AttributeError,
        sent (contributor_stats_url "o" "r") (sent (contributors_url "o" "r") start)).
Proof. vm_compute. repeat split. Qed.

End Runs.

#[local] Existing Instance plain.

(** C3 as stated fails: the serialized profile contains a substring of
    the shape of an identifier link, followed by one more digit; the
    resolution does not return it, queries the registry and ends with
    [None]. *)
Lemma run_on_link_not_returned :
  let run := search_github_user_for_orcid_robust alice_net "alice" start in
  alice_net 0%nat (user_url "alice") = ok_json alice_profile
  /\ alice_net 1%nat (user_url "alice") = ok_json alice_profile
  /\ has_pid (str alice_profile)
  /\ fst run = Ok JNull
  /\ existsb is_registry_url (requests (snd run)) = true.
Proof.
  split; [reflexivity|]. split; [reflexivity|]. split.
  - exists (chars
              "{'login': 'alice', 'id': 4242, 'name': 'Alice Doe', 'company': None, 'bio': '"),
      (chars "https://orcid.org/0000-0002-4321-2180"),
      (chars "1'}").
    split; vm_compute; reflexivity.
  - vm_compute. split; reflexivity.
Qed.

(** *** Instances of the general statements *)

Lemma scan_result_nonempty_witness :
  fst (search_github_user_for_orcid erin_net "erin" start)
  = Ok (JList [JStr "https://orcid.org/0000-0002-4321-2180"])
  /\ (JList [JStr "https://orcid.org/0000-0002-4321-2180"] = JNull
      \/ exists m ms,
          JList [JStr "https://orcid.org/0000-0002-4321-2180"] = JList (JStr m :: ms)
          /\ index0 (JList [JStr "https://orcid.org/0000-0002-4321-2180"])
             = Ok (JStr m)).
Proof.
  split; [vm_compute; reflexivity|].
  apply (scan_result_nonempty erin_net "erin" start). vm_compute. reflexivity.
Defined.

Lemma missing_user_raises_witness :
  status_code (empty_net 0%nat (user_url "nobody")) <> 200
  /\ fst (search_github_user_for_orcid_robust empty_net "nobody" start)
     = Raise (ValueError "GitHub user nobody does not exist.").
Proof.
  split; [discriminate|].
  apply (missing_user_raises empty_net "nobody" start). discriminate.
Defined.

Lemma profile_link_returned_witness :
  exists m,
    first_pid (str erin_profile) m /\
    fst (search_github_user_for_orcid_robust erin_net "erin" start) = Ok (JStr m) /\
    requests (snd (search_github_user_for_orcid_robust erin_net "erin" start))
    = [user_url "erin"; user_url "erin"] /\
    is_registry_url (user_url "erin") = false.
Proof.
  apply (profile_link_returned erin_net "erin" start erin_profile).
  - reflexivity.
  - reflexivity.
  - exists (chars
              "{'login': 'erin', 'id': 4242, 'name': 'Erin Poe', 'company': None, 'bio': 'see "),
      (chars "https://orcid.org/0000-0002-4321-2180"),
      (chars ".'}").
    repeat split; vm_compute; reflexivity.
Defined.

Lemma exact_match_returned_witness :
  fst (search_github_user_for_orcid_robust dave_net "dave" start)
  = Ok (JStr "https://orcid.org/0000-0001-2345-6789")
  /\ search_github_user_for_orcid_robust (carol_net []) "carol" start
     = search_without_affiliation (carol_net []) "Carol" "Roe" (JStr "ACME")
         (sent (exact_search_url "Carol" "Roe" (JStr "ACME"))
            (sent (user_url "carol")
               (sent (social_accounts_url "carol")
                  (sent (user_url "carol") (sent (user_url "carol") start))))).
Proof.
  split.
  - apply (exact_match_returned dave_net "dave" start
             (sent (social_accounts_url "dave")
                (sent (user_url "dave") (sent (user_url "dave") start)))
             (sent (user_url "dave")
                (sent (social_accounts_url "dave")
                   (sent (user_url "dave") (sent (user_url "dave") start))))
             "Dave Poe" (JStr "MIT")
             (search_page 1 [candidate "0000-0001-2345-6789"])
             ltac:(reflexivity) ltac:(vm_compute; reflexivity)
             ltac:(vm_compute; reflexivity) ltac:(vm_compute; reflexivity))
      with (results := JList [candidate "0000-0001-2345-6789"])
           (first_result := candidate "0000-0001-2345-6789")
           (identifier :=
              JDict [("uri", JStr "https://orcid.org/0000-0001-2345-6789");
                     ("path", JStr "0000-0001-2345-6789");
                     ("host", JStr "orcid.org")]);
      reflexivity.
  - apply (exact_match_returned (carol_net []) "carol" start
             (sent (social_accounts_url "carol")
                (sent (user_url "carol") (sent (user_url "carol") start)))
             (sent (user_url "carol")
                (sent (social_accounts_url "carol")
                   (sent (user_url "carol") (sent (user_url "carol") start))))
             "Carol Roe" (JStr "ACME") (search_page 0 [])
             ltac:(reflexivity) ltac:(vm_compute; reflexivity)
             ltac:(vm_compute; reflexivity) ltac:(vm_compute; reflexivity))
      with (n := 0); [reflexivity|discriminate].
Defined.

Lemma matched_volume_and_dates_witness :
  exists contributor w',
    contributor_of repo_net "o" "r" ann (sent (contributors_url "o" "r") start)
    = (Ok (JDict contributor), w') /\
    dict_lookup "volume" contributor = Some (JNum 16) /\
    dict_lookup "contributed_dates" contributor
    = Some (JList [JNum 1682812800; JNum 1684022400]).
Proof.
  apply (matched_volume_and_dates repo_net "o" "r" ann
           (sent (contributors_url "o" "r") start) (JStr "ann") [] ann_stats []
           (JStr "ann") ann_weeks
           [ {| week_start := JNum 1682812800; additions := 10; deletions := 2 |};
             {| week_start := JNum 1683417600; additions := 0; deletions := 0 |};
             {| week_start := JNum 1684022400; additions := 0; deletions := 4 |} ]);
    reflexivity.
Defined.

Lemma listing_order_preserved_witness :
  get_repository_contributors empty_net "o" "r" start
  = (Ok [], sent (contributors_url "o" "r") start)
  /\ (forall contributors w',
         get_repository_contributors repo_net "o" "r" start = (Ok contributors, w') ->
         logins contributors = [Ok (JStr "bob"); Ok (JStr "ann")])
  /\ exists contributors w',
       get_repository_contributors repo_net "o" "r" start = (Ok contributors, w').
Proof.
  split; [|split].
  - apply (proj1 (listing_order_preserved empty_net "o" "r" start)). discriminate.
  - apply (proj1 (proj2 (listing_order_preserved repo_net "o" "r" start)
                    [bob; ann] eq_refl)).
  - apply (proj2 (proj2 (listing_order_preserved repo_net "o" "r" start)
                    [bob; ann] eq_refl)).
    + reflexivity.
    + intros n. reflexivity.
Defined.

(* ================================================================== *)
(** ** Instances of the further statements *)

Lemma middle_names_ignored_witness :
  first_token "Dan N. Bullock" = "Dan"
  /\ last_token "Dan N. Bullock" = "Bullock"
  /\ search_orcid_individual bullock_net (JStr "Dan N. Bullock") (JStr "IU") start
     = search_orcid_individual bullock_net (JStr "Dan Bullock") (JStr "IU") start.
Proof.
  apply (middle_names_ignored bullock_net "Dan" "N." "Bullock" (JStr "IU") start);
    reflexivity.
Defined.

Lemma single_word_name_witness :
  first_token "Plato" = "Plato" /\ last_token "Plato" = "Plato".
Proof. apply (single_word_name "Plato"). reflexivity. Defined.

Lemma path_without_owner_witness :
  getTargetRepositoryDetails details_net "autoCFF" start = (Raise IndexError, start).
Proof. apply (path_without_owner details_net "autoCFF" start). reflexivity. Defined.

Lemma details_of_owner_and_name_witness :
  getTargetRepositoryDetails details_net "DanNBullock/autoCFF" start
  = (Ok (JDict [("name", JStr "autoCFF")]),
     sent (repository_url "DanNBullock" "autoCFF") start)
  /\ getTargetRepositoryDetails details_net "https://github.com/DanNBullock/autoCFF"
       start
     = (Ok (JDict [("name", JStr "autoCFF")]),
        sent (repository_url "DanNBullock" "autoCFF") start).
Proof.
  split.
  - apply (proj1 (details_of_owner_and_name details_net "DanNBullock" "autoCFF" start
                    eq_refl eq_refl)).
  - apply (proj2 (details_of_owner_and_name details_net "DanNBullock" "autoCFF" start
                    eq_refl eq_refl) "https://github.com").
Defined.

Lemma trailing_slash_shifts_witness :
  getTargetRepositoryDetails details_net "DanNBullock/autoCFF/" start
  = (Ok (JDict [("message", JStr "Not Found")]),
     sent "https://api.github.com/repos/autoCFF/" start).
Proof.
  apply (trailing_slash_shifts details_net "DanNBullock" "autoCFF" start). reflexivity.
Defined.

Lemma findall_empty_iff_witness :
  ~ exists pre m post,
      occurs_at (chars (str alice_profile)) pre m post
      /\ delimited pre post.
Proof.
  apply (proj1 (findall_empty_iff (str alice_profile))). vm_compute. reflexivity.
Defined.

Lemma scanned_links_well_formed_witness :
  JList [JStr "https://orcid.org/0000-0003-1415-9265"] = JNull
  \/ exists l,
      JList [JStr "https://orcid.org/0000-0003-1415-9265"] = JList (map JStr l)
      /\ Forall is_pid_string l.
Proof.
  apply (scanned_links_well_formed fay_net "fay" start
           (JList [JStr "https://orcid.org/0000-0003-1415-9265"])
           (sent (social_accounts_url "fay") (sent (user_url "fay") start))).
  vm_compute. reflexivity.
Defined.

Lemma social_link_returned_witness :
  exists m,
    first_pid
      (str (JList [JDict [("provider", JStr "generic");
                          ("url", JStr "https://orcid.org/0000-0003-1415-9265")]])) m
    /\ search_github_user_for_orcid_robust fay_net "fay" start
       = (Ok (JStr m),
          sent (social_accounts_url "fay")
            (sent (user_url "fay") (sent (user_url "fay") start))).
Proof.
  apply (social_link_returned fay_net "fay" start
           (profile "fay" (JStr "Fay Lim") JNull JNull)).
  - reflexivity.
  - reflexivity.
  - apply (proj1 (findall_empty_spec _)). vm_compute. reflexivity.
  - reflexivity.
  - exists (chars "[{'provider': 'generic', 'url': '"),
      (chars "https://orcid.org/0000-0003-1415-9265"),
      (chars "'}]").
    repeat split; vm_compute; reflexivity.
Defined.

Lemma no_display_name_raises_witness :
  search_github_user_for_orcid_robust ghost_net "ghost" start
  = (Raise AttributeError,
     sent (user_url "ghost")
       (sent (social_accounts_url "ghost")
          (sent (user_url "ghost") (sent (user_url "ghost") start)))).
Proof.
  apply (no_display_name_raises ghost_net "ghost" start
           (sent (social_accounts_url "ghost")
              (sent (user_url "ghost") (sent (user_url "ghost") start)))
           ghost_profile JNull JNull);
    try (vm_compute; reflexivity).
  intros s. discriminate.
Defined.

Lemma vanished_profile_raises_witness :
  search_github_user_for_orcid_robust vanishing_net "ghost" start
  = (Raise TypeError,
     sent (user_url "ghost")
       (sent (social_accounts_url "ghost")
          (sent (user_url "ghost") (sent (user_url "ghost") start)))).
Proof.
  apply (vanished_profile_raises vanishing_net "ghost" start
           (sent (social_accounts_url "ghost")
              (sent (user_url "ghost") (sent (user_url "ghost") start))));
    try (vm_compute; reflexivity).
  discriminate.
Defined.

Lemma single_count_empty_page_raises_witness :
  search_orcid_individual hollow_net (JStr "Zed Qux") (JStr "ACME") start
  = (Raise IndexError, sent (exact_search_url "Zed" "Qux" (JStr "ACME")) start).
Proof.
  apply (single_count_empty_page_raises hollow_net "Zed Qux" (JStr "ACME") start
           (search_page 1 []));
    reflexivity.
Defined.

Lemma null_result_raises_witness :
  search_orcid_individual nobody_net (JStr "Zed Qux") (JStr "ACME") start
  = (Raise TypeError,
     sent (broad_search_url "Zed" "Qux")
       (sent (exact_search_url "Zed" "Qux" (JStr "ACME")) start)).
Proof.
  apply (null_result_raises nobody_net "Zed Qux" (JStr "ACME") start
           (JDict [("result", JNull); ("num-found", JNum 0)]));
    reflexivity.
Defined.

Lemma registry_unavailable_witness :
  search_orcid_individual empty_net (JStr "Zed Qux") (JStr "ACME") start
  = (Ok JNull,
     sent (broad_search_url "Zed" "Qux")
       (sent (exact_search_url "Zed" "Qux" (JStr "ACME")) start)).
Proof.
  apply (registry_unavailable empty_net "Zed Qux" (JStr "ACME") start); discriminate.
Defined.

Lemma acronym_of_affiliation_witness :
  @acronym accented epfl = (E_acute ++ "PFL")%string
  /\ @capitalized_affiliation accented (employment epfl) = Ok (@acronym accented epfl)
  /\ @capitalized_affiliation plain (employment epfl) = Ok "PFL".
Proof.
  split; [vm_compute; reflexivity|]. split.
  - apply (@acronym_of_affiliation accented (employment epfl)
             (JDict [("name", JStr epfl)]) epfl);
      reflexivity.
  - vm_compute. reflexivity.
Defined.


Lemma acronym_candidate_accepted_witness :
  search_without_affiliation lee_net "Ann" "Lee" (JStr "MIT") start
  = (Ok (JStr "https://orcid.org/0000-0002-1825-0097"),
     sent (record_url (JStr "0000-0002-1825-0097"))
       (slept (sent (broad_search_url "Ann" "Lee") start))).
Proof.
  apply (acronym_candidate_accepted lee_net "Ann" "Lee" "MIT" start
           (search_page 1 [candidate "0000-0002-1825-0097"])
           (candidate "0000-0002-1825-0097") [] (JStr "0000-0002-1825-0097")
           (record ["Harvard University"; "Massachusetts Institute of Technology"])
           [employment "Harvard University"]
           (employment "Massachusetts Institute of Technology") []
           (JDict [("name", JStr "Massachusetts Institute of Technology")])
           "Massachusetts Institute of Technology");
    reflexivity.
Defined.

Lemma broad_search_result_from_listing_witness :
  JStr "https://orcid.org/0000-0002-1825-0097" = JNull
  \/ exists search_results results items candidate orcid,
      body (lee_net 0%nat (broad_search_url "Ann" "Lee")) = Some search_results /\
      get search_results "result" = Ok results /\
      iter results = Ok items /\
      In candidate items /\
      candidate_path candidate = Ok orcid /\
      JStr "https://orcid.org/0000-0002-1825-0097" = JStr (orcid_uri orcid).
Proof.
  apply (broad_search_result_from_listing lee_net "Ann" "Lee" (JStr "MIT") start
           (JStr "https://orcid.org/0000-0002-1825-0097")
           (sent (record_url (JStr "0000-0002-1825-0097"))
              (slept (sent (broad_search_url "Ann" "Lee") start)))).
  vm_compute. reflexivity.
Defined.

Lemma record_shape_witness :
  exists login contributions,
    get ann "login" = Ok login /\
    get ann "contributions" = Ok contributions /\
    sent (contributor_stats_url "o" "r") (sent (contributors_url "o" "r") start)
    = sent (contributor_stats_url "o" "r") (sent (contributors_url "o" "r") start) /\
    (full_record (JStr "ann") (JNum 2) [JNum 1682812800; JNum 1684022400] 16
     = bare_record login contributions
     \/ exists dates volume,
         full_record (JStr "ann") (JNum 2) [JNum 1682812800; JNum 1684022400] 16
         = full_record login contributions dates volume).
Proof.
  apply (record_shape repo_net "o" "r" ann (sent (contributors_url "o" "r") start)
           (full_record (JStr "ann") (JNum 2) [JNum 1682812800; JNum 1684022400] 16)
           (sent (contributor_stats_url "o" "r")
              (sent (contributors_url "o" "r") start))).
  vm_compute. reflexivity.
Defined.

Lemma one_statistics_fetch_each_witness :
  exists contributors w',
    get_repository_contributors repo_net "o" "r" start = (Ok contributors, w') /\
    List.length contributors = 2%nat /\
    requests w'
    = [contributor_stats_url "o" "r"; contributor_stats_url "o" "r";
       contributors_url "o" "r"].
Proof.
  do 2 eexists. split; [vm_compute; reflexivity|].
  eapply (one_statistics_fetch_each repo_net "o" "r" start [bob; ann]).
  - reflexivity.
  - vm_compute. reflexivity.
Defined.

Lemma statistics_unavailable_witness :
  fst (get_repository_contributors pending_net "o" "r" start)
  = Ok [bare_record (JStr "bob") (JNum 1); bare_record (JStr "ann") (JNum 2)].
Proof.
  apply (statistics_unavailable pending_net "o" "r" start [bob; ann]).
  - reflexivity.
  - reflexivity.
  - intros n. discriminate.
Defined.

Lemma authorless_entry_aborts_witness :
  get_repository_contributors orphan_net "o" "r" start
  = (Raise AttributeError,
     sent (contributor_stats_url "o" "r") (sent (contributors_url "o" "r") start)).
Proof.
  apply (authorless_entry_aborts orphan_net "o" "r" start bob [ann] (JStr "bob") []
           (JDict [("total", JNum 1); ("weeks", JList []); ("author", JNull)])
           [ann_stats] JNull);
    reflexivity.
Defined.

Lemma scan_footprint_witness :
  let w' := snd (search_github_user_for_orcid fay_net "fay" start) in
  (requests w' = [user_url "fay"]
   \/ requests w' = [social_accounts_url "fay"; user_url "fay"])
  /\ is_registry_url (user_url "fay") = false
  /\ is_registry_url (social_accounts_url "fay") = false
  /\ stdout w' = [] /\ sleeps w' = O.
Proof. exact (scan_footprint fay_net "fay" start). Defined.

Lemma broad_search_paced_witness :
  let run := search_without_affiliation lee_net "Ann" "Lee" (JStr "MIT") start in
  exists fetched final,
    snd run = (final ++ paced_fetches fetched
                 ++ Requested (broad_search_url "Ann" "Lee") :: start)%list /\
    Forall (fun url => is_registry_url url = true) fetched /\
    (final = [] \/ final = [Paused] \/ exists line, final = [Printed line]) /\
    (forall v, fst run = Ok v -> final <> [Paused]).
Proof. exact (broad_search_paced lee_net "Ann" "Lee" (JStr "MIT") start). Defined.

Lemma too_many_abandons_witness :
  search_github_user_for_orcid_robust
    (carol_net [candidate "0000-0001-2345-6789"]) "carol" start
  = (Ok JNull,
     printed
       "Warning: 11 results found for Carol Roe without affiliation. Returning None."
       (sent (broad_search_url "Carol" "Roe")
          (sent (exact_search_url "Carol" "Roe" (JStr "ACME"))
             (sent (user_url "carol")
                (sent (social_accounts_url "carol")
                   (sent (user_url "carol") (sent (user_url "carol") start))))))).
Proof.
  apply (too_many_abandons (carol_net [candidate "0000-0001-2345-6789"]) "carol" start
           (sent (social_accounts_url "carol")
              (sent (user_url "carol") (sent (user_url "carol") start)))
           (sent (user_url "carol")
              (sent (social_accounts_url "carol")
                 (sent (user_url "carol") (sent (user_url "carol") start))))
           "Carol Roe" (JStr "ACME")
           (search_page 11 [candidate "0000-0001-2345-6789"]) 11
           (candidate "0000-0001-2345-6789") []);
    try (vm_compute; reflexivity).
Defined.

Lemma unmatched_contributor_witness :
  exists contributor w',
    contributor_of repo_net "o" "r" bob (sent (contributors_url "o" "r") start)
    = (Ok (JDict contributor), w') /\
    dict_lookup "login" contributor = Some (JStr "bob") /\
    dict_lookup "volume" contributor = None /\
    dict_lookup "contributed_dates" contributor = Some (JList []) /\
    forall rest contributors,
      contributors_loop repo_net "o" "r" (bob :: rest) contributors
        (sent (contributors_url "o" "r") start)
      = contributors_loop repo_net "o" "r" rest
          (contributors ++ [JDict contributor])%list w'.
Proof.
  apply (unmatched_contributor repo_net "o" "r" bob
           (sent (contributors_url "o" "r") start) (JStr "bob") [ann_stats]);
    reflexivity.
Defined.
